(** * Line-table builder: a shallow embedding of the two scripts

    [scripts/generateLineData.py] and [scripts/parseWikipediaColors.py]
    each build one insertion-ordered table from literal dictionaries and
    dump it as JSON.  Python dictionaries are modelled as association
    lists in insertion order with unique keys, strings as UTF-8 byte
    strings, and the few fallible operations ([d[k]], [open]) in a small
    error monad. *)

From Stdlib Require Import String Ascii List Bool Arith Lia DecimalString.
Import ListNotations.
Open Scope string_scope.

(** ** Python runtime fragment used by the scripts *)

Module Py.

Inductive exn : Type :=
| KeyError (key : string)
| OSError (path : string).

Inductive result (A : Type) : Type :=
| Ok (a : A)
| Raise (e : exn).
Arguments Ok {A} a.
Arguments Raise {A} e.

Definition bind {A B : Type} (m : result A) (f : A -> result B) : result B :=
  match m with
  | Ok a => f a
  | Raise e => Raise e
  end.

(** [for x in xs: acc = body(acc, x)], stopping at the first exception. *)
Fixpoint for_each {A S : Type} (body : S -> A -> result S) (xs : list A) (acc : S)
  : result S :=
  match xs with
  | [] => Ok acc
  | x :: xs' => bind (body acc x) (for_each body xs')
  end.

Section Dict.
Context {V : Type}.

(** A [dict]: its items in insertion order. *)
Definition dict : Type := list (string * V).

Definition items (d : dict) : list (string * V) := d.
Definition keys (d : dict) : list string := map fst d.
Definition values (d : dict) : list V := map snd d.
Definition len (d : dict) : nat := List.length d.

(** [d.get(k)] *)
Fixpoint get (k : string) (d : dict) : option V :=
  match d with
  | [] => None
  | (k', v) :: d' => if String.eqb k' k then Some v else get k d'
  end.

(** [k in d] *)
Definition contains (k : string) (d : dict) : bool :=
  match get k d with
  | Some _ => true
  | None => false
  end.

(** [d[k]] *)
Definition getitem (d : dict) (k : string) : result V :=
  match get k d with
  | Some v => Ok v
  | None => Raise (KeyError k)
  end.

(** [d[k] = v]: a present key keeps its position, a new key goes last. *)
Fixpoint setitem (d : dict) (k : string) (v : V) : dict :=
  match d with
  | [] => [(k, v)]
  | (k', v') :: d' =>
      if String.eqb k' k then (k', v) :: d' else (k', v') :: setitem d' k v
  end.

(** [d.update(other)] *)
Definition update (d other : dict) : dict :=
  fold_left (fun acc kv => setitem acc (fst kv) (snd kv)) (items other) d.

(** A dictionary display [{k1: v1, k2: v2, ...}], entries evaluated
    left to right; a repeated key keeps its first position and its
    last value. *)
Definition display (entries : list (string * V)) : dict :=
  fold_left (fun acc kv => setitem acc (fst kv) (snd kv)) entries [].

(** Well-formedness of a dictionary: no key occurs twice. *)
Definition wf (d : dict) : Prop := NoDup (keys d).
End Dict.
Arguments dict V : clear implicits.

(** *** Strings *)

Definition dquote : ascii := "034"%char.
Definition newline : string := String "010"%char EmptyString.

Fixpoint startswith (p s : string) : bool :=
  match p, s with
  | EmptyString, _ => true
  | String a p', String b s' => Ascii.eqb a b && startswith p' s'
  | String _ _, EmptyString => false
  end.

Fixpoint endswith_char (c : ascii) (s : string) : bool :=
  match s with
  | EmptyString => false
  | String a EmptyString => Ascii.eqb a c
  | String _ s' => endswith_char c s'
  end.

(** [str(n)] for a non-negative [int]. *)
Definition str_of_nat (n : nat) : string :=
  NilEmpty.string_of_uint (Nat.to_uint n).

(** [sep.join(parts)] *)
Fixpoint join (sep : string) (parts : list string) : string :=
  match parts with
  | [] => EmptyString
  | [p] => p
  | p :: ps => p ++ sep ++ join sep ps
  end.

(** *** [os.path.join] (POSIX) *)

Definition path_join_step (path b : string) : string :=
  if startswith "/" b then b
  else if String.eqb path EmptyString || endswith_char "/" path then path ++ b
  else path ++ "/" ++ b.

Definition os_path_join (a : string) (ps : list string) : string :=
  fold_left path_join_step ps a.

(** *** The part of the outside world the scripts touch *)

Record world : Type := {
  files : dict string;          (* path -> contents *)
  unwritable : list string;     (* paths on which open(path, 'w') fails *)
  stdout : list string          (* printed lines, oldest first *)
}.

(** [with open(path, 'w', encoding='utf-8') as f: f.write(text)]:
    the file is truncated, then holds exactly [text]. *)
Definition writable (path : string) (w : world) : bool :=
  negb (existsb (String.eqb path) (unwritable w)).

Definition write_text (path text : string) (w : world) : result world :=
  if writable path w then
    Ok {| files := setitem (files w) path text;
          unwritable := unwritable w;
          stdout := stdout w |}
  else Raise (OSError path).

Definition print (line : string) (w : world) : world :=
  {| files := files w; unwritable := unwritable w; stdout := stdout w ++ [line] |}.

Definition read_text (path : string) (w : world) : option string :=
  get path (files w).

End Py.

Import Py.

Notation "x <- m ;; k" := (Py.bind m (fun x => k))
  (at level 61, m at next level, right associativity).

(** ** [json.dump(obj, f, ensure_ascii=False, indent=2)] *)

Module Json.

Definition hex_digit (n : nat) : ascii :=
  match n with
  | 0 => "0" | 1 => "1" | 2 => "2" | 3 => "3" | 4 => "4" | 5 => "5" | 6 => "6"
  | 7 => "7" | 8 => "8" | 9 => "9" | 10 => "a" | 11 => "b" | 12 => "c"
  | 13 => "d" | 14 => "e" | _ => "f"
  end%char.

(** The replacement table of the string encoder: the quote, the
    backslash and the control characters are escaped, every other
    byte (so all of UTF-8 above ASCII) is written as it is. *)
Definition escape_char (c : ascii) : string :=
  let n := nat_of_ascii c in
  if Nat.eqb n 34 then String "\" (String dquote EmptyString)
  else if Nat.eqb n 92 then "\\"
  else if Nat.eqb n 8 then "\b"
  else if Nat.eqb n 12 then "\f"
  else if Nat.eqb n 10 then "\n"
  else if Nat.eqb n 13 then "\r"
  else if Nat.eqb n 9 then "\t"
  else if Nat.ltb n 32 then
    "\u00" ++ String (hex_digit (n / 16)) (String (hex_digit (n mod 16)) EmptyString)
  else String c EmptyString.

Fixpoint escape (s : string) : string :=
  match s with
  | EmptyString => EmptyString
  | String c s' => escape_char c ++ escape s'
  end.

Definition encode_str (s : string) : string :=
  String dquote (escape s ++ String dquote EmptyString).

Fixpoint indent (level : nat) : string :=
  match level with
  | 0 => EmptyString
  | S l => "  " ++ indent l
  end.

Definition newline_indent (level : nat) : string := newline ++ indent level.

(** A dict at nesting depth [level]; [enc] encodes a value one level
    deeper. *)
Definition encode_dict {V : Type} (enc : nat -> V -> string) (level : nat)
    (d : dict V) : string :=
  match d with
  | [] => "{}"
  | _ :: _ =>
      "{" ++ newline_indent (S level)
      ++ join ("," ++ newline_indent (S level))
           (map (fun kv => encode_str (fst kv) ++ ": " ++ enc (S level) (snd kv))
                (items d))
      ++ newline_indent level ++ "}"
  end.

End Json.

(** ** Data model shared by the two scripts *)

(** The value stored under a line key: a dict with the keys ["color"]
    and ["en"], and in the Wikipedia script also ["operator"] and
    ["source"], always inserted in that order. *)
Record LineAttributes : Type := {
  color : string;
  en : string;
  operator : option string;
  source : option string
}.

Definition line (c e : string) : LineAttributes :=
  {| color := c; en := e; operator := None; source := None |}.

Definition opt_item (k : string) (o : option string) : list (string * string) :=
  match o with
  | Some v => [(k, v)]
  | None => []
  end.

(** The value as the Python dict it is. *)
Definition attrs_dict (a : LineAttributes) : dict string :=
  ([("color", color a); ("en", en a)]
   ++ opt_item "operator" (operator a) ++ opt_item "source" (source a))%list.

Definition dumps (table : dict LineAttributes) : string :=
  Json.encode_dict
    (fun level a => Json.encode_dict (fun _ s => Json.encode_str s) level (attrs_dict a))
    0 table.

(** The color format [^#[0-9A-Fa-f]{6}$]. *)
Definition is_hex_digit (c : ascii) : bool :=
  let n := nat_of_ascii c in
  (Nat.leb 48 n && Nat.leb n 57) || (Nat.leb 65 n && Nat.leb n 70)
  || (Nat.leb 97 n && Nat.leb n 102).

Definition is_color (s : string) : bool :=
  match s with
  | String "#" digits =>
      Nat.eqb (String.length digits) 6 && forallb is_hex_digit (list_ascii_of_string digits)
  | _ => false
  end.

(** ** scripts/generateLineData.py *)

Module GenerateLineData.

Definition TOKYO_LINES_entries : list (string * LineAttributes) := [
  ("銀座線", line "#FF9500" "Ginza Line");
  ("1号線銀座線", line "#FF9500" "Ginza Line");
  ("3号線銀座線", line "#FF9500" "Ginza Line");
  ("3号線", line "#FF9500" "Ginza Line");
  ("日比谷線", line "#B5B5AC" "Hibiya Line");
  ("2号線日比谷線", line "#B5B5AC" "Hibiya Line");
  ("丸ノ内線", line "#F62E36" "Marunouchi Line");
  ("4号線丸ノ内線", line "#F62E36" "Marunouchi Line");
  ("4号線", line "#F62E36" "Marunouchi Line");
  ("4号線丸ノ内線分岐線", line "#F62E36" "Marunouchi Branch Line");
  ("東西線", line "#009BBF" "Tozai Line");
  ("5号線東西線", line "#009BBF" "Tozai Line");
  ("千代田線", line "#00A650" "Chiyoda Line");
  ("9号線千代田線", line "#00A650" "Chiyoda Line");
  ("有楽町線", line "#C1A470" "Yurakucho Line");
  ("8号線有楽町線", line "#C1A470" "Yurakucho Line");
  ("半蔵門線", line "#8F76D6" "Hanzomon Line");
  ("11号線半蔵門線", line "#8F76D6" "Hanzomon Line");
  ("南北線", line "#00AC9B" "Namboku Line");
  ("7号線南北線", line "#00AC9B" "Namboku Line");
  ("副都心線", line "#9C5E31" "Fukutoshin Line");
  ("13号線副都心線", line "#9C5E31" "Fukutoshin Line");
  ("浅草線", line "#E85298" "Asakusa Line");
  ("1号線浅草線", line "#E85298" "Asakusa Line");
  ("三田線", line "#0079C2" "Mita Line");
  ("6号線三田線", line "#0079C2" "Mita Line");
  ("新宿線", line "#6CBB5A" "Shinjuku Line");
  ("10号線新宿線", line "#6CBB5A" "Shinjuku Line");
  ("大江戸線", line "#B6007A" "Oedo Line");
  ("12号線大江戸線", line "#B6007A" "Oedo Line");
  ("山手線", line "#9ACD32" "Yamanote Line");
  ("中央線", line "#FF4500" "Chuo Line");
  ("中央線快速", line "#FF4500" "Chuo Rapid Line");
  ("中央・総武線", line "#FFD700" "Chuo-Sobu Line");
  ("総武線", line "#FFD700" "Sobu Line");
  ("総武本線", line "#FFD700" "Sobu Line");
  ("京浜東北線", line "#00BFFF" "Keihin-Tohoku Line");
  ("東海道線", line "#FF8C00" "Tokaido Line");
  ("東海道新幹線", line "#0072BC" "Tokaido Shinkansen");
  ("横須賀線", line "#0F4C9A" "Yokosuka Line");
  ("埼京線", line "#228B22" "Saikyo Line");
  ("赤羽線（埼京線）", line "#228B22" "Saikyo Line");
  ("東北線（埼京線）", line "#228B22" "Saikyo Line");
  ("湘南新宿ライン", line "#FF4500" "Shonan-Shinjuku Line");
  ("常磐線", line "#00B261" "Joban Line");
  ("常磐線快速", line "#00B261" "Joban Rapid Line");
  ("常磐新線", line "#0066CC" "Tsukuba Express");
  ("京葉線", line "#C9242F" "Keiyo Line");
  ("武蔵野線", line "#FF6600" "Musashino Line");
  ("南武線", line "#FFD400" "Nambu Line");
  ("横浜線", line "#7CFC00" "Yokohama Line");
  ("青梅線", line "#FF4500" "Ome Line");
  ("東北線", line "#F68B1E" "Tohoku Line");
  ("東北本線", line "#F68B1E" "Tohoku Line");
  ("東北新幹線", line "#00B261" "Tohoku Shinkansen");
  ("鶴見線", line "#FFCC00" "Tsurumi Line");
  ("東横線", line "#DA0442" "Tokyu Toyoko Line");
  ("東急東横線", line "#DA0442" "Tokyu Toyoko Line");
  ("田園都市線", line "#00A040" "Tokyu Den-en-toshi Line");
  ("東急田園都市線", line "#00A040" "Tokyu Den-en-toshi Line");
  ("目黒線", line "#009CD2" "Tokyu Meguro Line");
  ("東急目黒線", line "#009CD2" "Tokyu Meguro Line");
  ("大井町線", line "#F18C00" "Tokyu Oimachi Line");
  ("東急大井町線", line "#F18C00" "Tokyu Oimachi Line");
  ("池上線", line "#EE86A7" "Tokyu Ikegami Line");
  ("東急池上線", line "#EE86A7" "Tokyu Ikegami Line");
  ("多摩川線", line "#AE0378" "Tokyu Tamagawa Line");
  ("東急多摩川線", line "#AE0378" "Tokyu Tamagawa Line");
  ("世田谷線", line "#EE86A7" "Tokyu Setagaya Line");
  ("こどもの国線", line "#45B8E8" "Kodomonokuni Line");
  ("小田急線", line "#1E90FF" "Odakyu Line");
  ("小田原線", line "#1E90FF" "Odakyu Odawara Line");
  ("小田急小田原線", line "#1E90FF" "Odakyu Odawara Line");
  ("江ノ島線", line "#1E90FF" "Odakyu Enoshima Line");
  ("小田急江ノ島線", line "#1E90FF" "Odakyu Enoshima Line");
  ("多摩線", line "#1E90FF" "Odakyu Tama Line");
  ("小田急多摩線", line "#1E90FF" "Odakyu Tama Line");
  ("京王線", line "#DD0077" "Keio Line");
  ("井の頭線", line "#1E90FF" "Keio Inokashira Line");
  ("京王井の頭線", line "#1E90FF" "Keio Inokashira Line");
  ("相模原線", line "#DD0077" "Keio Sagamihara Line");
  ("動物園線", line "#DD0077" "Keio Dobutsuen Line");
  ("競馬場線", line "#DD0077" "Keio Keibajo Line");
  ("池袋線", line "#003399" "Seibu Ikebukuro Line");
  ("西武池袋線", line "#003399" "Seibu Ikebukuro Line");
  ("西武新宿線", line "#003399" "Seibu Shinjuku Line");
  ("拝島線", line "#003399" "Seibu Haijima Line");
  ("多摩湖線", line "#003399" "Seibu Tamako Line");
  ("国分寺線", line "#003399" "Seibu Kokubunji Line");
  ("西武園線", line "#003399" "Seibu-en Line");
  ("西武有楽町線", line "#003399" "Seibu Yurakucho Line");
  ("狭山線", line "#003399" "Seibu Sayama Line");
  ("豊島線", line "#003399" "Seibu Toshima Line");
  ("山口線", line "#003399" "Seibu Yamaguchi Line");
  ("東上本線", line "#0060CF" "Tobu Tojo Line");
  ("東武東上線", line "#0060CF" "Tobu Tojo Line");
  ("伊勢崎線", line "#0060CF" "Tobu Isesaki Line");
  ("東武伊勢崎線", line "#0060CF" "Tobu Isesaki Line");
  ("東武スカイツリーライン", line "#0060CF" "Tobu Skytree Line");
  ("亀戸線", line "#0060CF" "Tobu Kameido Line");
  ("大師線", line "#0060CF" "Tobu Daishi Line");
  ("野田線", line "#0060CF" "Tobu Urban Park Line");
  ("本線", line "#1E50A2" "Keisei Main Line");
  ("京成本線", line "#1E50A2" "Keisei Main Line");
  ("押上線", line "#1E50A2" "Keisei Oshiage Line");
  ("京成押上線", line "#1E50A2" "Keisei Oshiage Line");
  ("金町線", line "#1E50A2" "Keisei Kanamachi Line");
  ("成田空港線", line "#1E50A2" "Narita Sky Access");
  ("空港線", line "#E8334A" "Keikyu Airport Line");
  ("京急本線", line "#E8334A" "Keikyu Main Line");
  ("京急線", line "#E8334A" "Keikyu Line");
  ("りんかい線", line "#00A3E0" "Rinkai Line");
  ("東京臨海新交通臨海線", line "#00B7CE" "Yurikamome");
  ("ゆりかもめ", line "#00B7CE" "Yurikamome");
  ("東京モノレール羽田線", line "#00A7DB" "Tokyo Monorail");
  ("東京モノレール", line "#00A7DB" "Tokyo Monorail");
  ("多摩都市モノレール線", line "#F39800" "Tama Monorail");
  ("多摩モノレール", line "#F39800" "Tama Monorail");
  ("日暮里・舎人線", line "#FF69B4" "Nippori-Toneri Liner");
  ("日暮里・舎人ライナー", line "#FF69B4" "Nippori-Toneri Liner");
  ("埼玉高速鉄道線", line "#2C74BE" "Saitama Railway");
  ("北総線", line "#0080C6" "Hokuso Line");
  ("東葉高速線", line "#2FA8E0" "Toyo Rapid Railway");
  ("新京成線", line "#E85298" "Shin-Keisei Line");
  ("流山線", line "#00A650" "Nagareyama Line");
  ("荒川線", line "#FFC20E" "Tokyo Sakura Tram");
  ("ディズニーリゾートライン", line "#E7348E" "Disney Resort Line");
  ("上野懸垂線", line "#228B22" "Ueno Zoo Monorail");
  ("つくばエクスプレス", line "#0066CC" "Tsukuba Express")
].

Definition TOKYO_LINES : dict LineAttributes := display TOKYO_LINES_entries.

Definition KANSAI_LINES_entries : list (string * LineAttributes) := [
  ("JR京都線", line "#0072bc" "JR Kyoto Line");
  ("JR神戸線", line "#0072bc" "JR Kobe Line");
  ("JR東西線", line "#ff69b4" "JR Tozai Line");
  ("東海道本線", line "#0072bc" "Tokaido Line");
  ("大阪環状線", line "#e60012" "Osaka Loop Line");
  ("阪和線", line "#f15a22" "Hanwa Line");
  ("関西本線", line "#009944" "Kansai Line");
  ("関西線", line "#009944" "Kansai Line");
  ("奈良線", line "#a52a2a" "Nara Line");
  ("嵯峨野線", line "#8b4513" "Sagano Line");
  ("山陰本線", line "#8b4513" "San'in Line");
  ("山陰線", line "#8b4513" "San'in Line");
  ("湖西線", line "#00a0e9" "Kosei Line");
  ("山陽新幹線", line "#0072bc" "Sanyo Shinkansen");
  ("山陽線", line "#0072bc" "Sanyo Line");
  ("福知山線", line "#ffd400" "Fukuchiyama Line");
  ("片町線", line "#ff69b4" "Katamachi Line");
  ("桜島線", line "#e60012" "Sakurajima Line");
  ("おおさか東線", line "#9acd32" "Osaka Higashi Line");
  ("京阪本線", line "#008000" "Keihan Main Line");
  ("京阪鴨東線", line "#008000" "Keihan Oto Line");
  ("鴨東線", line "#008000" "Keihan Oto Line");
  ("京阪中之島線", line "#008000" "Keihan Nakanoshima Line");
  ("中之島線", line "#008000" "Keihan Nakanoshima Line");
  ("京阪宇治線", line "#008000" "Keihan Uji Line");
  ("宇治線", line "#008000" "Keihan Uji Line");
  ("京阪交野線", line "#008000" "Keihan Katano Line");
  ("交野線", line "#008000" "Keihan Katano Line");
  ("京阪京津線", line "#008000" "Keihan Keishin Line");
  ("京津線", line "#008000" "Keihan Keishin Line");
  ("京阪石山坂本線", line "#008000" "Keihan Ishiyama-Sakamoto Line");
  ("石山坂本線", line "#008000" "Keihan Ishiyama-Sakamoto Line");
  ("阪急京都本線", line "#800000" "Hankyu Kyoto Line");
  ("阪急京都線", line "#800000" "Hankyu Kyoto Line");
  ("京都線", line "#800000" "Hankyu Kyoto Line");
  ("阪急神戸本線", line "#800000" "Hankyu Kobe Line");
  ("阪急神戸線", line "#800000" "Hankyu Kobe Line");
  ("神戸線", line "#800000" "Hankyu Kobe Line");
  ("阪急宝塚本線", line "#800000" "Hankyu Takarazuka Line");
  ("阪急宝塚線", line "#800000" "Hankyu Takarazuka Line");
  ("宝塚線", line "#800000" "Hankyu Takarazuka Line");
  ("阪急千里線", line "#800000" "Hankyu Senri Line");
  ("千里線", line "#800000" "Hankyu Senri Line");
  ("阪急嵐山線", line "#800000" "Hankyu Arashiyama Line");
  ("嵐山線", line "#800000" "Hankyu Arashiyama Line");
  ("今津線", line "#800000" "Hankyu Imazu Line");
  ("伊丹線", line "#800000" "Hankyu Itami Line");
  ("甲陽線", line "#800000" "Hankyu Koyo Line");
  ("箕面線", line "#800000" "Hankyu Minoo Line");
  ("神戸高速線", line "#800000" "Kobe Kosoku Line");
  ("近鉄京都線", line "#e60012" "Kintetsu Kyoto Line");
  ("近鉄奈良線", line "#e60012" "Kintetsu Nara Line");
  ("近鉄大阪線", line "#e60012" "Kintetsu Osaka Line");
  ("大阪線", line "#e60012" "Kintetsu Osaka Line");
  ("近鉄南大阪線", line "#e60012" "Kintetsu Minami-Osaka Line");
  ("南大阪線", line "#e60012" "Kintetsu Minami-Osaka Line");
  ("近鉄難波線", line "#e60012" "Kintetsu Namba Line");
  ("難波線", line "#e60012" "Kintetsu Namba Line");
  ("橿原線", line "#e60012" "Kintetsu Kashihara Line");
  ("天理線", line "#e60012" "Kintetsu Tenri Line");
  ("生駒線", line "#e60012" "Kintetsu Ikoma Line");
  ("けいはんな線", line "#e60012" "Kintetsu Keihanna Line");
  ("大阪市高速電気軌道御堂筋線", line "#e5171f" "Midosuji Line");
  ("御堂筋線", line "#e5171f" "Midosuji Line");
  ("1号線(御堂筋線)", line "#e5171f" "Midosuji Line");
  ("大阪市高速電気軌道谷町線", line "#522886" "Tanimachi Line");
  ("谷町線", line "#522886" "Tanimachi Line");
  ("2号線(谷町線)", line "#522886" "Tanimachi Line");
  ("大阪市高速電気軌道四つ橋線", line "#0078ba" "Yotsubashi Line");
  ("四つ橋線", line "#0078ba" "Yotsubashi Line");
  ("3号線(四つ橋線)", line "#0078ba" "Yotsubashi Line");
  ("大阪市高速電気軌道中央線", line "#019a66" "Chuo Line");
  ("中央線", line "#019a66" "Chuo Line");
  ("4号線(中央線)", line "#019a66" "Chuo Line");
  ("大阪市高速電気軌道千日前線", line "#e44d93" "Sennichimae Line");
  ("千日前線", line "#e44d93" "Sennichimae Line");
  ("5号線(千日前線)", line "#e44d93" "Sennichimae Line");
  ("大阪市高速電気軌道堺筋線", line "#814721" "Sakaisuji Line");
  ("堺筋線", line "#814721" "Sakaisuji Line");
  ("6号線(堺筋線)", line "#814721" "Sakaisuji Line");
  ("大阪市高速電気軌道長堀鶴見緑地線", line "#a9cc51" "Nagahori Tsurumi-ryokuchi Line");
  ("長堀鶴見緑地線", line "#a9cc51" "Nagahori Tsurumi-ryokuchi Line");
  ("7号線(長堀鶴見緑地線)", line "#a9cc51" "Nagahori Tsurumi-ryokuchi Line");
  ("大阪市高速電気軌道今里筋線", line "#ee7b1a" "Imazatosuji Line");
  ("今里筋線", line "#ee7b1a" "Imazatosuji Line");
  ("8号線（今里筋線）", line "#ee7b1a" "Imazatosuji Line");
  ("南港ポートタウン線", line "#00b2b2" "New Tram");
  ("京都市営地下鉄烏丸線", line "#31a354" "Karasuma Line");
  ("烏丸線", line "#31a354" "Karasuma Line");
  ("京都市営地下鉄東西線", line "#e85298" "Tozai Line");
  ("西神線", line "#008000" "Seishin Line");
  ("西神延伸線", line "#008000" "Seishin Extension Line");
  ("海岸線", line "#0078ba" "Kaigan Line");
  ("北神線", line "#008000" "Hokushin Line");
  ("阪神本線", line "#f15a22" "Hanshin Main Line");
  ("阪神なんば線", line "#f15a22" "Hanshin Namba Line");
  ("武庫川線", line "#f15a22" "Hanshin Mukogawa Line");
  ("南海本線", line "#0072bc" "Nankai Main Line");
  ("南海高野線", line "#0072bc" "Nankai Koya Line");
  ("高野線", line "#0072bc" "Nankai Koya Line");
  ("泉北高速鉄道線", line "#0072bc" "Semboku Rapid Railway");
  ("叡山本線", line "#008000" "Eizan Main Line");
  ("鞍馬線", line "#008000" "Eizan Kurama Line");
  ("嵐山本線", line "#800080" "Randen Arashiyama Line");
  ("北野線", line "#800080" "Randen Kitano Line");
  ("大阪モノレール線", line "#00a0e9" "Osaka Monorail");
  ("ポートアイランド線", line "#00b2b2" "Port Liner");
  ("六甲アイランド線", line "#00b2b2" "Rokko Liner");
  ("妙見線", line "#f15a22" "Nose Myoken Line");
  ("日生線", line "#f15a22" "Nose Nissei Line");
  ("有馬線", line "#f15a22" "Shintetsu Arima Line");
  ("粟生線", line "#f15a22" "Shintetsu Ao Line");
  ("阪堺線", line "#008000" "Hankai Line");
  ("上町線", line "#008000" "Hankai Uemachi Line")
].

Definition KANSAI_LINES : dict LineAttributes := display KANSAI_LINES_entries.
(** The table [main] builds, with the two source tables as parameters:
    [all_lines = {}], two [update]s, then the default transfer entry. *)
Definition merge_lines (KANSAI TOKYO : dict LineAttributes) : dict LineAttributes :=
  let all_lines := [] in
  let all_lines := update all_lines KANSAI in
  let all_lines := update all_lines TOKYO in
  all_lines.

Definition build_lines (KANSAI TOKYO : dict LineAttributes) : dict LineAttributes :=
  let all_lines := merge_lines KANSAI TOKYO in
  let all_lines := setitem all_lines "transfer" (line "#999999" "Transfer") in
  all_lines.

Definition output_path (script_dir : string) : string :=
  os_path_join script_dir [".."; "public"; "japan_line_data.json"].

(** [main], run from a script located in [script_dir]
    ([os.path.dirname(__file__)]). *)
Definition main_with (KANSAI TOKYO : dict LineAttributes) (script_dir : string)
    (w : world) : result world :=
  let all_lines := build_lines KANSAI TOKYO in
  let output_path := output_path script_dir in
  w <- write_text output_path (dumps all_lines) w ;;
  Ok (print ("Generated " ++ output_path ++ " with "
             ++ str_of_nat (len all_lines) ++ " line entries") w).

Definition all_lines : dict LineAttributes := build_lines KANSAI_LINES TOKYO_LINES.

Definition main : string -> world -> result world :=
  main_with KANSAI_LINES TOKYO_LINES.

End GenerateLineData.

(** ** scripts/parseWikipediaColors.py *)

Module ParseWikipediaColors.

Definition WIKIPEDIA_COLORS_entries : list (string * (string * string * string)) := [
  ("CA", ("F6861F", "Tōkaidō Main Line", "JR Central"));
  ("CB", ("477543", "Gotemba Line", "JR Central"));
  ("CC", ("773C97", "Minobu Line", "JR Central"));
  ("CD", ("6FA3D7", "Iida Line", "JR Central"));
  ("CE", ("8C5A38", "Taketoyo Line", "JR Central"));
  ("CF", ("327198", "Chūō Main Line", "JR Central"));
  ("CG", ("9E1813", "Takayama Main Line", "JR Central"));
  ("CI", ("C8BA45", "Taita Line", "JR Central"));
  ("CJ", ("16B68F", "Kansai Main Line", "JR Central"));
  ("CO", ("007BBE", "Chūō Main Line", "JR East"));
  ("JA", ("2E8B57", "Saikyō Line", "JR East"));
  ("JB", ("FFD700", "Chūō–Sōbu Line", "JR East"));
  ("JC", ("FF4500", "Chūō Line (Rapid)", "JR East"));
  ("JE", ("DC143C", "Keiyō Line", "JR East"));
  ("JH", ("9ACD32", "Yokohama Line", "JR East"));
  ("JI", ("FFD700", "Tsurumi Line", "JR East"));
  ("JJ", ("3CB371", "Jōban Line", "JR East"));
  ("JK", ("00BFFF", "Keihin-Tōhoku Line", "JR East"));
  ("JL", ("808080", "Jōban Line (local)", "JR East"));
  ("JM", ("FF4500", "Musashino Line", "JR East"));
  ("JN", ("FFD700", "Nambu Line", "JR East"));
  ("JO", ("0070B9", "Yokosuka Line", "JR East"));
  ("JS", ("FF0000", "Shōnan-Shinjuku Line", "JR East"));
  ("JT", ("FFA500", "Tōkaidō Main Line", "JR East"));
  ("JU", ("FFA500", "Utsunomiya Line", "JR East"));
  ("JY", ("9ACD32", "Yamanote Line", "JR East"));
  ("SE", ("00B3E6", "Shin'etsu Main Line", "JR East"));
  ("SN_JR", ("F15A22", "Shinonoi Line", "JR East"));
  ("HA", ("E09C42", "Sapporo—Asahikawa—Abashiri", "JR Hokkaido"));
  ("HAP", ("0098D8", "Chitose Line (Airport)", "JR Hokkaido"));
  ("HB", ("EB848D", "Hakodate Line", "JR Hokkaido"));
  ("HH", ("487CBC", "Hokkaido Line", "JR Hokkaido"));
  ("HT", ("994A95", "Hokkaido Line", "JR Hokkaido"));
  ("HW", ("8A483B", "Sōya Main Line", "JR Hokkaido"));
  ("SB", ("2a6482", "Tokushima Line", "JR Shikoku"));
  ("SD", ("E25885", "Dosan Line", "JR Shikoku"));
  ("SM", ("00B5A7", "Mugi Line", "JR Shikoku"));
  ("SU", ("F9AA00", "Uchiko Line", "JR Shikoku"));
  ("KO", ("E3379F", "Keiō Line", "Keio"));
  ("IN", ("1A407B", "Inokashira Line", "Keio"));
  ("KS", ("005AAA", "Keisei Main Line", "Keisei"));
  ("OE", ("2683CE", "Enoshima Line", "Odakyu"));
  ("OH", ("2683CE", "Odawara Line", "Odakyu"));
  ("OT", ("2683CE", "Tama Line", "Odakyu"));
  ("MC", ("019A66", "Chūō Line", "Osaka Metro"));
  ("MI", ("EE7B1A", "Imazatosuji Line", "Osaka Metro"));
  ("MK", ("814721", "Sakaisuji Line", "Osaka Metro"));
  ("MM", ("E5171F", "Midōsuji Line", "Osaka Metro"));
  ("MN", ("A9CC51", "Nagahori Tsurumi-ryokuchi Line", "Osaka Metro"));
  ("MP", ("00A0DE", "Nankō Port Town Line", "Osaka Metro"));
  ("MS", ("E44D93", "Sennichimae Line", "Osaka Metro"));
  ("MT", ("522886", "Tanimachi Line", "Osaka Metro"));
  ("MY", ("0078BE", "Yotsubashi Line", "Osaka Metro"));
  ("SI", ("ED772D", "Ikebukuro Line", "Seibu"));
  ("SK", ("34B559", "Kokubunji Line", "Seibu"));
  ("SS", ("00A6BF", "Shinjuku Line", "Seibu"));
  ("ST", ("FAAA27", "Tamako Line", "Seibu"));
  ("SW", ("ED772D", "Tamagawa Line", "Seibu"));
  ("SY", ("EF473D", "Yamaguchi Line", "Seibu"));
  ("TD", ("00BFFF", "Noda Line", "Tobu"));
  ("TI", ("DC143C", "Isesaki Line", "Tobu"));
  ("TJ", ("004098", "Tōjō Line", "Tobu"));
  ("TN", ("FFA500", "Nikkō Line", "Tobu"));
  ("TS", ("005AAA", "Skytree Line", "Tobu"));
  ("A", ("EC6E65", "Asakusa Line", "Toei"));
  ("E", ("CE045B", "Ōedo Line", "Toei"));
  ("I", ("006CB6", "Mita Line", "Toei"));
  ("S", ("B0C124", "Shinjuku Line", "Toei"));
  ("C", ("00BB85", "Chiyoda Line", "Tokyo Metro"));
  ("F", ("9C5E31", "Fukutoshin Line", "Tokyo Metro"));
  ("G", ("FF9500", "Ginza Line", "Tokyo Metro"));
  ("H", ("B5B5AC", "Hibiya Line", "Tokyo Metro"));
  ("M", ("F62E36", "Marunouchi Line", "Tokyo Metro"));
  ("N", ("00AC9B", "Namboku Line", "Tokyo Metro"));
  ("T", ("009BBF", "Tozai Line", "Tokyo Metro"));
  ("Y", ("C1A470", "Yūrakuchō Line", "Tokyo Metro"));
  ("Z", ("8F76D6", "Hanzōmon Line", "Tokyo Metro"));
  ("DT", ("20A288", "Den-en-Toshi Line", "Tokyu"));
  ("IK", ("EE86A7", "Ikegami Line", "Tokyu"));
  ("KD", ("0068B7", "Kodomonokuni Line", "Tokyu"));
  ("MG", ("009CD2", "Meguro Line", "Tokyu"));
  ("OM", ("F18C43", "Oimachi Line", "Tokyu"));
  ("SG", ("FCC70D", "Setagaya Line", "Tokyu"));
  ("SH", ("890d84", "Shin-Yokohama Line", "Tokyu"));
  ("TM", ("AE0378", "Tamagawa Line", "Tokyu"));
  ("TY", ("DA0442", "Toyoko Line", "Tokyu"));
  ("HK", ("34B580", "Hankyu Railway", "Hankyu"));
  ("HS", ("00BFFF", "Hokusō Line", "Hokuso"));
  ("KK", ("32CAE2", "Keikyu Line", "Keikyu"));
  ("SR", ("345CAA", "Saitama Rapid Railway", "Saitama"));
  ("SL", ("FF69B4", "Shin-Keisei Line", "Shin-Keisei"));
  ("MO", ("000080", "Tokyo Monorail", "Tokyo Monorail"));
  ("TR", ("0AAA3C", "Tōyō Rapid Railway", "Toyo Rapid"));
  ("U", ("0065A6", "Yurikamome", "Yurikamome"));
  ("WK", ("6D0023", "Watarase Keikoku Line", "Watarase"));
  ("TX", ("000084", "Tsukuba Express", "Tsukuba Express"))
].

Definition WIKIPEDIA_COLORS : dict (string * string * string) := display WIKIPEDIA_COLORS_entries.

Definition JAPANESE_TO_WIKI_entries : list (string * string) := [
  ("銀座線", "G");
  ("1号線銀座線", "G");
  ("3号線銀座線", "G");
  ("3号線", "G");
  ("日比谷線", "H");
  ("2号線日比谷線", "H");
  ("丸ノ内線", "M");
  ("4号線丸ノ内線", "M");
  ("4号線", "M");
  ("4号線丸ノ内線分岐線", "M");
  ("東西線", "T");
  ("5号線東西線", "T");
  ("千代田線", "C");
  ("9号線千代田線", "C");
  ("有楽町線", "Y");
  ("8号線有楽町線", "Y");
  ("半蔵門線", "Z");
  ("11号線半蔵門線", "Z");
  ("南北線", "N");
  ("7号線南北線", "N");
  ("副都心線", "F");
  ("13号線副都心線", "F");
  ("浅草線", "A");
  ("1号線浅草線", "A");
  ("三田線", "I");
  ("6号線三田線", "I");
  ("新宿線", "S");
  ("10号線新宿線", "S");
  ("大江戸線", "E");
  ("12号線大江戸線", "E");
  ("山手線", "JY");
  ("中央線", "JC");
  ("中央線快速", "JC");
  ("中央・総武線", "JB");
  ("総武線", "JB");
  ("総武本線", "JB");
  ("京浜東北線", "JK");
  ("横須賀線", "JO");
  ("埼京線", "JA");
  ("赤羽線（埼京線）", "JA");
  ("東北線（埼京線）", "JA");
  ("常磐線", "JJ");
  ("常磐線快速", "JJ");
  ("京葉線", "JE");
  ("武蔵野線", "JM");
  ("南武線", "JN");
  ("横浜線", "JH");
  ("鶴見線", "JI");
  ("東海道線", "JT");
  ("東横線", "TY");
  ("東急東横線", "TY");
  ("田園都市線", "DT");
  ("東急田園都市線", "DT");
  ("目黒線", "MG");
  ("東急目黒線", "MG");
  ("大井町線", "OM");
  ("東急大井町線", "OM");
  ("池上線", "IK");
  ("東急池上線", "IK");
  ("多摩川線", "TM");
  ("東急多摩川線", "TM");
  ("世田谷線", "SG");
  ("こどもの国線", "KD");
  ("小田急線", "OH");
  ("小田原線", "OH");
  ("小田急小田原線", "OH");
  ("江ノ島線", "OE");
  ("小田急江ノ島線", "OE");
  ("多摩線", "OT");
  ("小田急多摩線", "OT");
  ("京王線", "KO");
  ("井の頭線", "IN");
  ("京王井の頭線", "IN");
  ("相模原線", "KO");
  ("動物園線", "KO");
  ("競馬場線", "KO");
  ("池袋線", "SI");
  ("西武池袋線", "SI");
  ("西武新宿線", "SS");
  ("拝島線", "SI");
  ("多摩湖線", "ST");
  ("国分寺線", "SK");
  ("西武園線", "SI");
  ("西武有楽町線", "SI");
  ("狭山線", "SI");
  ("豊島線", "SI");
  ("山口線", "SY");
  ("東上本線", "TJ");
  ("東武東上線", "TJ");
  ("伊勢崎線", "TI");
  ("東武伊勢崎線", "TI");
  ("東武スカイツリーライン", "TS");
  ("亀戸線", "TI");
  ("大師線", "TI");
  ("野田線", "TD");
  ("本線", "KS");
  ("京成本線", "KS");
  ("押上線", "KS");
  ("京成押上線", "KS");
  ("金町線", "KS");
  ("成田空港線", "KS");
  ("空港線", "KK");
  ("京急本線", "KK");
  ("京急線", "KK");
  ("りんかい線", "HS");
  ("東京臨海新交通臨海線", "U");
  ("ゆりかもめ", "U");
  ("東京モノレール羽田線", "MO");
  ("東京モノレール", "MO");
  ("日暮里・舎人線", "SL");
  ("日暮里・舎人ライナー", "SL");
  ("埼玉高速鉄道線", "SR");
  ("北総線", "HS");
  ("東葉高速線", "TR");
  ("新京成線", "SL");
  ("つくばエクスプレス", "TX");
  ("常磐新線", "TX");
  ("御堂筋線", "MM");
  ("大阪市高速電気軌道御堂筋線", "MM");
  ("1号線(御堂筋線)", "MM");
  ("谷町線", "MT");
  ("大阪市高速電気軌道谷町線", "MT");
  ("2号線(谷町線)", "MT");
  ("四つ橋線", "MY");
  ("大阪市高速電気軌道四つ橋線", "MY");
  ("3号線(四つ橋線)", "MY");
  ("中央線", "MC");
  ("大阪市高速電気軌道中央線", "MC");
  ("4号線(中央線)", "MC");
  ("千日前線", "MS");
  ("大阪市高速電気軌道千日前線", "MS");
  ("5号線(千日前線)", "MS");
  ("堺筋線", "MK");
  ("大阪市高速電気軌道堺筋線", "MK");
  ("6号線(堺筋線)", "MK");
  ("長堀鶴見緑地線", "MN");
  ("大阪市高速電気軌道長堀鶴見緑地線", "MN");
  ("7号線(長堀鶴見緑地線)", "MN");
  ("今里筋線", "MI");
  ("大阪市高速電気軌道今里筋線", "MI");
  ("8号線（今里筋線）", "MI");
  ("南港ポートタウン線", "MP");
  ("阪急京都本線", "HK");
  ("阪急京都線", "HK");
  ("京都線", "HK");
  ("阪急神戸本線", "HK");
  ("阪急神戸線", "HK");
  ("神戸線", "HK");
  ("阪急宝塚本線", "HK");
  ("阪急宝塚線", "HK");
  ("宝塚線", "HK");
  ("阪急千里線", "HK");
  ("千里線", "HK");
  ("阪急嵐山線", "HK");
  ("嵐山線", "HK");
  ("今津線", "HK");
  ("伊丹線", "HK");
  ("甲陽線", "HK");
  ("箕面線", "HK");
  ("神戸高速線", "HK")
].

Definition JAPANESE_TO_WIKI : dict string := display JAPANESE_TO_WIKI_entries.

Definition ADDITIONAL_COLORS_entries : list (string * string) := [
  ("JR京都線", "#0072bc");
  ("JR神戸線", "#0072bc");
  ("JR東西線", "#ff69b4");
  ("東海道本線", "#0072bc");
  ("大阪環状線", "#e60012");
  ("阪和線", "#f15a22");
  ("関西本線", "#009944");
  ("関西線", "#009944");
  ("奈良線", "#a52a2a");
  ("嵯峨野線", "#8b4513");
  ("山陰本線", "#8b4513");
  ("山陰線", "#8b4513");
  ("湖西線", "#00a0e9");
  ("山陽新幹線", "#0072bc");
  ("山陽線", "#0072bc");
  ("福知山線", "#ffd400");
  ("片町線", "#ff69b4");
  ("桜島線", "#e60012");
  ("おおさか東線", "#9acd32");
  ("東海道新幹線", "#0072bc");
  ("東北新幹線", "#00b261");
  ("京阪本線", "#008000");
  ("京阪鴨東線", "#008000");
  ("鴨東線", "#008000");
  ("京阪中之島線", "#008000");
  ("中之島線", "#008000");
  ("京阪宇治線", "#008000");
  ("宇治線", "#008000");
  ("京阪交野線", "#008000");
  ("交野線", "#008000");
  ("京阪京津線", "#008000");
  ("京津線", "#008000");
  ("京阪石山坂本線", "#008000");
  ("石山坂本線", "#008000");
  ("近鉄京都線", "#e60012");
  ("近鉄奈良線", "#e60012");
  ("近鉄大阪線", "#e60012");
  ("大阪線", "#e60012");
  ("近鉄南大阪線", "#e60012");
  ("南大阪線", "#e60012");
  ("近鉄難波線", "#e60012");
  ("難波線", "#e60012");
  ("橿原線", "#e60012");
  ("天理線", "#e60012");
  ("生駒線", "#e60012");
  ("けいはんな線", "#e60012");
  ("京都市営地下鉄烏丸線", "#31a354");
  ("烏丸線", "#31a354");
  ("京都市営地下鉄東西線", "#e85298");
  ("西神線", "#008000");
  ("西神延伸線", "#008000");
  ("海岸線", "#0078ba");
  ("北神線", "#008000");
  ("阪神本線", "#f15a22");
  ("阪神なんば線", "#f15a22");
  ("武庫川線", "#f15a22");
  ("南海本線", "#0072bc");
  ("南海高野線", "#0072bc");
  ("高野線", "#0072bc");
  ("泉北高速鉄道線", "#0072bc");
  ("叡山本線", "#008000");
  ("鞍馬線", "#008000");
  ("嵐山本線", "#800080");
  ("北野線", "#800080");
  ("大阪モノレール線", "#00a0e9");
  ("多摩都市モノレール線", "#f39800");
  ("多摩モノレール", "#f39800");
  ("ポートアイランド線", "#00b2b2");
  ("六甲アイランド線", "#00b2b2");
  ("阪堺線", "#008000");
  ("上町線", "#008000");
  ("妙見線", "#f15a22");
  ("日生線", "#f15a22");
  ("有馬線", "#f15a22");
  ("粟生線", "#f15a22");
  ("流山線", "#00a650");
  ("荒川線", "#ffc20e");
  ("ディズニーリゾートライン", "#e7348e");
  ("上野懸垂線", "#228b22");
  ("transfer", "#999999")
].

Definition ADDITIONAL_COLORS : dict string := display ADDITIONAL_COLORS_entries.
Definition CodeRow : Type := (string * string * string)%type.

(** Body of the first loop of [generate_line_data]. *)
Definition resolve_step (WIKIPEDIA_COLORS : dict CodeRow)
    (output : dict LineAttributes) (item : string * string)
    : result (dict LineAttributes) :=
  let '(ja_name, wiki_code) := item in
  if contains wiki_code WIKIPEDIA_COLORS then
    row <- getitem WIKIPEDIA_COLORS wiki_code ;;
    let '(hex_color, en_name, operator) := row in
    Ok (setitem output ja_name
          {| color := "#" ++ hex_color;
             en := en_name;
             operator := Some operator;
             source := Some "wikipedia" |})
  else Ok output.

(** The first loop: Wikipedia-sourced colors via the mapping. *)
Definition resolve_by_code (JAPANESE_TO_WIKI : dict string)
    (WIKIPEDIA_COLORS : dict CodeRow) : result (dict LineAttributes) :=
  for_each (resolve_step WIKIPEDIA_COLORS) (items JAPANESE_TO_WIKI) [].

(** Body of the second loop. *)
Definition fill_step (output : dict LineAttributes) (item : string * string)
    : dict LineAttributes :=
  let '(ja_name, color) := item in
  if negb (contains ja_name output) then
    setitem output ja_name
      {| color := color; en := ja_name; operator := None; source := Some "manual" |}
  else output.

(** The second loop: the additional colors. *)
Definition fill_gaps (ADDITIONAL_COLORS : dict string)
    (output : dict LineAttributes) : dict LineAttributes :=
  fold_left fill_step (items ADDITIONAL_COLORS) output.

Definition generate_line_data_with (JAPANESE_TO_WIKI : dict string)
    (WIKIPEDIA_COLORS : dict CodeRow) (ADDITIONAL_COLORS : dict string)
    : result (dict LineAttributes) :=
  output <- resolve_by_code JAPANESE_TO_WIKI WIKIPEDIA_COLORS ;;
  Ok (fill_gaps ADDITIONAL_COLORS output).

Definition generate_line_data : result (dict LineAttributes) :=
  generate_line_data_with JAPANESE_TO_WIKI WIKIPEDIA_COLORS ADDITIONAL_COLORS.

Definition output_path (script_dir : string) : string :=
  os_path_join script_dir [".."; "public"; "japan_line_colors.json"].

(** [sum(1 for v in line_data.values() if v.get('source') == tag)] *)
Definition count_source (tag : string) (line_data : dict LineAttributes) : nat :=
  List.length
    (filter (fun v => match source v with
                      | Some s => String.eqb s tag
                      | None => false
                      end)
            (values line_data)).

Definition main_with (JAPANESE_TO_WIKI : dict string)
    (WIKIPEDIA_COLORS : dict CodeRow) (ADDITIONAL_COLORS : dict string)
    (script_dir : string) (w : world) : result world :=
  line_data <- generate_line_data_with JAPANESE_TO_WIKI WIKIPEDIA_COLORS
                 ADDITIONAL_COLORS ;;
  let output_path := output_path script_dir in
  w <- write_text output_path (dumps line_data) w ;;
  let w := print ("Generated " ++ output_path ++ " with "
                  ++ str_of_nat (len line_data) ++ " line entries") w in
  let wiki_count := count_source "wikipedia" line_data in
  let manual_count := count_source "manual" line_data in
  let w := print ("  - From Wikipedia: " ++ str_of_nat wiki_count) w in
  let w := print ("  - Manual additions: " ++ str_of_nat manual_count) w in
  Ok w.

Definition main : string -> world -> result world :=
  main_with JAPANESE_TO_WIKI WIKIPEDIA_COLORS ADDITIONAL_COLORS.

End ParseWikipediaColors.

(** ** Small tables used to exercise the statements below *)

Module Examples.

(** Two regional tables that collide on ["X"]; only [sourceA] has ["Y"]. *)
Definition sourceA : dict LineAttributes :=
  [("X", line "#111111" "A"); ("Y", line "#333333" "C")].
Definition sourceB : dict LineAttributes :=
  [("X", line "#222222" "B")].

(** A code source with one resolvable and one unresolvable code. *)
Definition codeSource : dict string := [("LineA", "G"); ("LineB", "ZZ")].
Definition codeTable : dict ParseWikipediaColors.CodeRow :=
  [("G", ("FF9500", "Ginza Line", "Tokyo Metro"))].
Definition secondary : dict string :=
  [("LineA", "#222222"); ("Y", "#333333")].

Definition empty_world : world :=
  {| files := []; unwritable := []; stdout := [] |}.

(** A world that already holds stale output files and earlier prints. *)
Definition used_world : world :=
  {| files := [("scripts/../public/japan_line_data.json", "{}");
               ("scripts/../public/japan_line_colors.json", "stale")];
     unwritable := ["/etc/passwd"];
     stdout := ["earlier output"] |}.

End Examples.

(** ** Notions used to state the properties *)

(** The entry the first loop of [generate_line_data] writes for a code row. *)
Definition wikipedia_entry (row : ParseWikipediaColors.CodeRow) : LineAttributes :=
  let '(hex_color, en_name, op) := row in
  {| color := "#" ++ hex_color; en := en_name;
     operator := Some op; source := Some "wikipedia" |}.

(** The entry the second loop writes for an additional color. *)
Definition manual_entry (ja_name c : string) : LineAttributes :=
  {| color := c; en := ja_name; operator := None; source := Some "manual" |}.

(** A byte the JSON string encoder leaves alone: not a control
    character, not the quote, not the backslash. *)
Definition is_plain_char (c : ascii) : bool :=
  let n := nat_of_ascii c in
  Nat.leb 32 n && negb (Nat.eqb n 34) && negb (Nat.eqb n 92).

Definition is_plain (s : string) : bool :=
  forallb is_plain_char (list_ascii_of_string s).

(** * Properties *)

(** ** Dictionaries *)

Section DictFacts.
Context {V : Type}.
Implicit Types (d other : dict V) (k : string) (v : V).

Lemma get_setitem_eq d k v : get k (setitem d k v) = Some v.
Proof.
  induction d as [|[k' v'] d IH]; simpl.
  - now rewrite String.eqb_refl.
  - destruct (String.eqb k' k) eqn:E; simpl; rewrite E; auto.
Qed.

Lemma get_setitem_ne d k k' v : k' <> k -> get k' (setitem d k v) = get k' d.
Proof.
  intros Hne. induction d as [|[k0 v0] d IH]; simpl.
  - destruct (String.eqb_spec k k'); congruence.
  - destruct (String.eqb_spec k0 k) as [->|Hk]; simpl.
    + destruct (String.eqb_spec k k'); congruence.
    + now rewrite IH.
Qed.

Lemma keys_setitem d k v k' :
  In k' (keys (setitem d k v)) <-> k' = k \/ In k' (keys d).
Proof.
  induction d as [|[k0 v0] d IH]; simpl.
  - intuition.
  - destruct (String.eqb_spec k0 k) as [->|Hk]; simpl.
    + intuition.
    + rewrite IH. intuition.
Qed.

Lemma get_None_keys d k : get k d = None <-> ~ In k (keys d).
Proof.
  induction d as [|[k0 v0] d IH]; simpl.
  - intuition.
  - destruct (String.eqb_spec k0 k) as [->|Hk].
    + split; [discriminate | intuition].
    + rewrite IH. intuition.
Qed.

Lemma contains_keys d k : contains k d = true <-> In k (keys d).
Proof.
  unfold contains. destruct (get k d) eqn:E.
  - split; auto. intros _.
    destruct (in_dec string_dec k (keys d)) as [Hin|Hn]; auto.
    apply get_None_keys in Hn. congruence.
  - apply get_None_keys in E. split; [discriminate | tauto].
Qed.

Lemma get_Some_keys d k v : get k d = Some v -> In k (keys d).
Proof.
  intros H. apply contains_keys. unfold contains. now rewrite H.
Qed.

Lemma get_In_items d k v : get k d = Some v -> In (k, v) (items d).
Proof.
  induction d as [|[k0 v0] d IH]; simpl; [discriminate|].
  destruct (String.eqb_spec k0 k) as [->|Hk].
  - intros [= ->]. now left.
  - intros H. right. now apply IH.
Qed.

Lemma In_items_get d k v : wf d -> In (k, v) (items d) -> get k d = Some v.
Proof.
  unfold wf. induction d as [|[k0 v0] d IH]; simpl; [tauto|].
  intros Hnd [[= -> ->]|Hin].
  - now rewrite String.eqb_refl.
  - inversion Hnd as [|? ? Hnotin Hnd']; subst.
    destruct (String.eqb_spec k0 k) as [->|Hk].
    + exfalso. apply Hnotin. change (In (fst (k, v)) (map fst d)).
      now apply in_map.
    + now apply IH.
Qed.

Lemma wf_nil : wf (@nil (string * V)).
Proof. constructor. Qed.

Lemma wf_setitem d k v : wf d -> wf (setitem d k v).
Proof.
  unfold wf. induction d as [|[k0 v0] d IH]; simpl; intros Hnd.
  - constructor; [tauto | constructor].
  - inversion Hnd as [|? ? Hnotin Hnd']; subst.
    destruct (String.eqb_spec k0 k) as [->|Hk]; simpl.
    + now constructor.
    + constructor; [|now apply IH].
      change (~ In k0 (keys (setitem d k v))).
      rewrite keys_setitem. intuition.
Qed.

Lemma wf_update d other : wf d -> wf (update d other).
Proof.
  unfold update, items. revert d.
  induction other as [|[k v] o IH]; simpl; intros d Hd; auto using wf_setitem.
Qed.

Lemma wf_display (entries : list (string * V)) : wf (display entries).
Proof. apply (wf_update [] entries), wf_nil. Qed.

(** [update] is later-wins: a key of [other] takes [other]'s value,
    any other key keeps what it had. *)
Lemma get_update d other k :
  wf other ->
  get k (update d other) =
  match get k other with
  | Some v => Some v
  | None => get k d
  end.
Proof.
  unfold update, items, wf. revert d.
  induction other as [|[k0 v0] o IH]; simpl; intros d Hnd; [reflexivity|].
  inversion Hnd as [|? ? Hnotin Hnd']; subst.
  rewrite (IH _ Hnd').
  destruct (String.eqb_spec k0 k) as [->|Hk].
  - apply get_None_keys in Hnotin. rewrite Hnotin. apply get_setitem_eq.
  - rewrite get_setitem_ne by congruence. reflexivity.
Qed.

Lemma keys_update d other k :
  In k (keys (update d other)) <-> In k (keys d) \/ In k (keys other).
Proof.
  unfold update, items. revert d.
  induction other as [|[k0 v0] o IH]; simpl; intros d.
  - tauto.
  - rewrite IH, keys_setitem. intuition.
Qed.

(** A display without repeated keys is the list of its entries. *)
Lemma setitem_fresh d k v : ~ In k (keys d) -> setitem d k v = (d ++ [(k, v)])%list.
Proof.
  induction d as [|[k0 v0] d IH]; simpl; intros Hn; [reflexivity|].
  destruct (String.eqb_spec k0 k) as [->|Hk]; [tauto|].
  rewrite IH by tauto. reflexivity.
Qed.

Lemma update_disjoint d other :
  wf other -> (forall k, In k (keys other) -> ~ In k (keys d)) ->
  update d other = (d ++ other)%list.
Proof.
  unfold update, items, wf. revert d.
  induction other as [|[k0 v0] o IH]; simpl; intros d Hnd Hdisj.
  - now rewrite app_nil_r.
  - inversion Hnd as [|? ? Hnotin Hnd']; subst.
    rewrite setitem_fresh by (apply Hdisj; now left).
    rewrite IH; auto.
    + now rewrite <- app_assoc.
    + intros k Hk. unfold keys. rewrite map_app, in_app_iff. simpl.
      intros [H|[<-|[]]]; [apply (Hdisj k); auto | tauto].
Qed.

Lemma display_wf d : wf d -> display d = d.
Proof.
  intros Hd. apply (update_disjoint [] d Hd). simpl. tauto.
Qed.
End DictFacts.

(** ** The error monad *)

Lemma for_each_pure {A S : Type} (body : S -> A -> result S) (step : S -> A -> S)
    (xs : list A) (acc : S) :
  (forall s x, body s x = Ok (step s x)) ->
  for_each body xs acc = Ok (fold_left step xs acc).
Proof.
  intros Hbody. revert acc.
  induction xs as [|x xs IH]; simpl; intros acc; [reflexivity|].
  rewrite Hbody. simpl. apply IH.
Qed.

(** ** generateLineData: the two regional tables *)

Section GenerateLineDataFacts.
Import GenerateLineData.
Implicit Types (KANSAI TOKYO : dict LineAttributes) (k : string).

Lemma wf_merge_lines KANSAI TOKYO : wf (merge_lines KANSAI TOKYO).
Proof. unfold merge_lines. auto using wf_update, wf_nil. Qed.

Lemma wf_build_lines KANSAI TOKYO : wf (build_lines KANSAI TOKYO).
Proof. unfold build_lines. auto using wf_setitem, wf_merge_lines. Qed.

Lemma get_merge_lines KANSAI TOKYO k :
  wf KANSAI -> wf TOKYO ->
  get k (merge_lines KANSAI TOKYO) =
  match get k TOKYO with
  | Some v => Some v
  | None => get k KANSAI
  end.
Proof.
  intros HK HT. unfold merge_lines.
  rewrite (get_update _ TOKYO k HT), (get_update [] KANSAI k HK).
  simpl. now destruct (get k KANSAI).
Qed.

Lemma get_build_lines_other KANSAI TOKYO k :
  k <> "transfer" -> get k (build_lines KANSAI TOKYO) = get k (merge_lines KANSAI TOKYO).
Proof. intros Hk. unfold build_lines. now apply get_setitem_ne. Qed.

Lemma get_build_lines_transfer KANSAI TOKYO :
  get "transfer" (build_lines KANSAI TOKYO) = Some (line "#999999" "Transfer").
Proof. unfold build_lines. apply get_setitem_eq. Qed.

Lemma keys_build_lines KANSAI TOKYO k :
  In k (keys (build_lines KANSAI TOKYO)) <->
  In k (keys KANSAI) \/ In k (keys TOKYO) \/ k = "transfer".
Proof.
  unfold build_lines, merge_lines.
  rewrite keys_setitem, !keys_update. simpl. intuition.
Qed.

Lemma wf_KANSAI_LINES : wf KANSAI_LINES.
Proof. apply wf_display. Qed.

Lemma wf_TOKYO_LINES : wf TOKYO_LINES.
Proof. apply wf_display. Qed.

Lemma TOKYO_LINES_no_transfer : get "transfer" TOKYO_LINES = None.
Proof. vm_compute. reflexivity. Qed.

Lemma main_with_writes KANSAI TOKYO script_dir w :
  writable (output_path script_dir) w = true ->
  exists w',
    main_with KANSAI TOKYO script_dir w = Ok w'
    /\ read_text (output_path script_dir) w' = Some (dumps (build_lines KANSAI TOKYO))
    /\ unwritable w' = unwritable w
    /\ stdout w' =
       List.app (stdout w)
         ["Generated " ++ output_path script_dir ++ " with "
          ++ str_of_nat (len (build_lines KANSAI TOKYO)) ++ " line entries"].
Proof.
  intros Hw. unfold main_with, write_text. rewrite Hw. simpl.
  eexists. split; [reflexivity|]. unfold read_text. simpl.
  rewrite get_setitem_eq. auto.
Qed.
End GenerateLineDataFacts.

Lemma Forall_setitem {V : Type} (P : string * V -> Prop) (d : dict V) k v :
  Forall P (items d) -> P (k, v) -> Forall P (items (setitem d k v)).
Proof.
  unfold items. induction d as [|[k0 v0] d IH]; simpl; intros Hd Hkv.
  - now constructor.
  - inversion Hd; subst.
    destruct (String.eqb_spec k0 k) as [->|Hk]; constructor; auto.
Qed.

(** ** parseWikipediaColors: code resolution, then gap filling *)

Section ParseWikipediaColorsFacts.
Import ParseWikipediaColors.
Implicit Types (J A : dict string) (W : dict CodeRow) (k : string)
  (output : dict LineAttributes).

(** The guard [wiki_code in WIKIPEDIA_COLORS] protects the subscript:
    one iteration of the first loop never raises. *)
Lemma resolve_step_ok W output ja_name wiki_code :
  resolve_step W output (ja_name, wiki_code) =
  Ok match get wiki_code W with
     | Some (hex_color, en_name, op) =>
         setitem output ja_name
           {| color := "#" ++ hex_color; en := en_name;
              operator := Some op; source := Some "wikipedia" |}
     | None => output
     end.
Proof.
  unfold resolve_step, contains, getitem.
  destruct (get wiki_code W) as [[[h e] o]|]; reflexivity.
Qed.

Lemma resolve_loop_get W (entries : list (string * string)) output :
  NoDup (map fst entries) ->
  exists out,
    for_each (resolve_step W) entries output = Ok out
    /\ forall k,
         get k out =
         match get k entries with
         | Some code =>
             match get code W with
             | Some (hex_color, en_name, op) =>
                 Some {| color := "#" ++ hex_color; en := en_name;
                         operator := Some op; source := Some "wikipedia" |}
             | None => get k output
             end
         | None => get k output
         end.
Proof.
  revert output.
  induction entries as [|[ja code] entries IH];
    cbn [for_each map fst get In]; intros output Hnd.
  - eauto.
  - inversion Hnd as [|? ? Hnotin Hnd']; subst.
    rewrite resolve_step_ok. cbn [bind].
    destruct (IH (match get code W with
                  | Some (hex_color, en_name, op) =>
                      setitem output ja
                        {| color := "#" ++ hex_color; en := en_name;
                           operator := Some op; source := Some "wikipedia" |}
                  | None => output
                  end) Hnd') as (out & Hrun & Hget).
    exists out. split; [exact Hrun|]. intros k. rewrite Hget.
    destruct (String.eqb_spec ja k) as [->|Hk].
    + apply (get_None_keys entries) in Hnotin. rewrite Hnotin.
      destruct (get code W) as [[[h e] o]|]; [apply get_setitem_eq | reflexivity].
    + destruct (get code W) as [[[h e] o]|]; [|reflexivity].
      rewrite get_setitem_ne by congruence. reflexivity.
Qed.

Lemma resolve_loop_keys W (entries : list (string * string)) output :
  exists out,
    for_each (resolve_step W) entries output = Ok out
    /\ forall k,
         In k (keys out) <->
         In k (keys output)
         \/ exists code, In (k, code) entries /\ contains code W = true.
Proof.
  revert output.
  induction entries as [|[ja code] entries IH];
    cbn [for_each map fst get In]; intros output.
  - exists output. split; [reflexivity|]. intros k. split; [auto|].
    intros [H|(c & [] & _)]. exact H.
  - rewrite resolve_step_ok. cbn [bind].
    destruct (IH (match get code W with
                  | Some (hex_color, en_name, op) =>
                      setitem output ja
                        {| color := "#" ++ hex_color; en := en_name;
                           operator := Some op; source := Some "wikipedia" |}
                  | None => output
                  end)) as (out & Hrun & Hkeys).
    exists out. split; [exact Hrun|]. intros k. rewrite Hkeys.
    unfold contains. destruct (get code W) as [[[h e] o]|] eqn:Hcode.
    + rewrite keys_setitem. split.
      * intros [[->|H]|(c & Hin & Hc)]; eauto.
        right. exists code. rewrite Hcode. auto.
      * intros [H|(c & [[= -> ->]|Hin] & Hc)]; eauto.
    + split.
      * intros [H|(c & Hin & Hc)]; eauto.
      * intros [H|(c & [[= -> ->]|Hin] & Hc)]; eauto.
        rewrite Hcode in Hc. discriminate.
Qed.

Lemma resolve_loop_Forall W (P : string * LineAttributes -> Prop)
    (entries : list (string * string)) output :
  (forall ja_name hex_color en_name op,
      P (ja_name, {| color := "#" ++ hex_color; en := en_name;
                     operator := Some op; source := Some "wikipedia" |})) ->
  Forall P (items output) ->
  exists out,
    for_each (resolve_step W) entries output = Ok out /\ Forall P (items out).
Proof.
  intros HP. revert output.
  induction entries as [|[ja code] entries IH];
    cbn [for_each map fst get In]; intros output Hout.
  - eauto.
  - rewrite resolve_step_ok. cbn [bind]. apply IH.
    destruct (get code W) as [[[h e] o]|]; [|exact Hout].
    apply Forall_setitem; auto.
Qed.

(** The second loop is first-wins: a key the table already has is left
    alone, a missing key is added with the manual entry. *)
Lemma get_fill_gaps A output k :
  get k (fill_gaps A output) =
  match get k output with
  | Some v => Some v
  | None =>
      match get k A with
      | Some c => Some {| color := c; en := k; operator := None;
                          source := Some "manual" |}
      | None => None
      end
  end.
Proof.
  unfold fill_gaps, items. revert output.
  induction A as [|[ja c] A IH]; simpl; intros output.
  - now destruct (get k output).
  - rewrite IH. unfold contains.
    destruct (String.eqb_spec ja k) as [->|Hk].
    + destruct (get k output) eqn:E; simpl.
      * now rewrite E.
      * now rewrite get_setitem_eq.
    + destruct (get ja output) eqn:E; simpl; [reflexivity|].
      rewrite get_setitem_ne by congruence. reflexivity.
Qed.

Lemma keys_fill_gaps A output k :
  In k (keys (fill_gaps A output)) <-> In k (keys output) \/ In k (keys A).
Proof.
  unfold fill_gaps, items. revert output.
  induction A as [|[ja c] A IH]; simpl; intros output.
  - tauto.
  - rewrite IH. destruct (contains ja output) eqn:E; simpl.
    + apply contains_keys in E. intuition (subst; auto).
    + rewrite keys_setitem. intuition.
Qed.

Lemma fill_gaps_Forall (P : string * LineAttributes -> Prop) A output :
  (forall ja_name c,
      P (ja_name, {| color := c; en := ja_name; operator := None;
                     source := Some "manual" |})) ->
  Forall P (items output) -> Forall P (items (fill_gaps A output)).
Proof.
  intros HP. unfold fill_gaps, items. revert output.
  induction A as [|[ja c] A IH]; simpl; intros output Hout; [exact Hout|].
  apply IH. destruct (contains ja output); simpl; [exact Hout|].
  apply Forall_setitem; auto.
Qed.

Lemma main_with_writes_colors J W A script_dir w line_data :
  generate_line_data_with J W A = Ok line_data ->
  writable (output_path script_dir) w = true ->
  exists w',
    main_with J W A script_dir w = Ok w'
    /\ read_text (output_path script_dir) w' = Some (dumps line_data)
    /\ unwritable w' = unwritable w
    /\ stdout w' =
       List.app (stdout w)
         ["Generated " ++ output_path script_dir ++ " with "
          ++ str_of_nat (len line_data) ++ " line entries";
          "  - From Wikipedia: " ++ str_of_nat (count_source "wikipedia" line_data);
          "  - Manual additions: " ++ str_of_nat (count_source "manual" line_data)].
Proof.
  intros Hgen Hw. unfold main_with, write_text. rewrite Hgen. simpl.
  rewrite Hw. simpl. eexists. split; [reflexivity|]. unfold read_text. simpl.
  rewrite get_setitem_eq. repeat split.
  rewrite <- !app_assoc. reflexivity.
Qed.
End ParseWikipediaColorsFacts.

(** ** Runs that only depend on the writability of their output path *)

Lemma runs_agree (run : world -> result world) (path text : string)
    (printed : list string) :
  (forall w, writable path w = true ->
     exists w', run w = Ok w'
                /\ read_text path w' = Some text
                /\ unwritable w' = unwritable w
                /\ stdout w' = List.app (stdout w) printed) ->
  forall w1 w2,
    writable path w1 = true -> writable path w2 = true ->
    exists w1' w2' w1'',
      run w1 = Ok w1' /\ run w2 = Ok w2' /\ run w1' = Ok w1''
      /\ read_text path w1' = Some text
      /\ read_text path w2' = read_text path w1'
      /\ read_text path w1'' = read_text path w1'
      /\ stdout w1' = List.app (stdout w1) printed
      /\ stdout w2' = List.app (stdout w2) printed
      /\ stdout w1'' = List.app (stdout w1') printed.
Proof.
  intros Hrun w1 w2 H1 H2.
  destruct (Hrun w1 H1) as (w1' & R1 & F1 & U1 & O1).
  destruct (Hrun w2 H2) as (w2' & R2 & F2 & _ & O2).
  assert (H1' : writable path w1' = true).
  { unfold writable in *. rewrite U1. exact H1. }
  destruct (Hrun w1' H1') as (w1'' & R3 & F3 & _ & O3).
  exists w1', w2', w1''.
  rewrite F1, F2, F3. repeat split; assumption.
Qed.

(** ** The color format *)

Lemma is_color_spec (s : string) :
  is_color s = true <->
  exists digits,
    s = String "#" digits
    /\ String.length digits = 6
    /\ Forall (fun c => is_hex_digit c = true) (list_ascii_of_string digits).
Proof.
  unfold is_color. split.
  - destruct s as [|c digits]; [discriminate|].
    destruct (Ascii.eqb_spec c "#") as [->|Hc].
    + intros H. apply andb_true_iff in H as [Hlen Hall].
      exists digits. repeat split.
      * now apply Nat.eqb_eq.
      * apply Forall_forall. now apply forallb_forall.
    + intros H. exfalso. apply Hc.
      destruct c as [[] [] [] [] [] [] [] []]; try discriminate H. reflexivity.
  - intros (digits & -> & Hlen & Hall).
    apply andb_true_iff. split.
    + now apply Nat.eqb_eq.
    + apply forallb_forall. now apply Forall_forall.
Qed.

(** ** The claims *)

Ltac wf_small := unfold wf; simpl; repeat constructor; simpl; intuition discriminate.

(** C1 (as amended).  In generateLineData the default transfer entry is
    injected after the two tables are merged, by a plain assignment: for
    any two source tables the built table maps ["transfer"] to exactly
    [{color: "#999999", en: "Transfer"}], and holds that key once.
    parseWikipediaColors has no such injection; there ["transfer"] is an
    ordinary entry of ADDITIONAL_COLORS, and the table the script
    produces maps it to [{color: "#999999", en: "transfer",
    source: "manual"}]. *)
Theorem C1_transfer_entry (KANSAI TOKYO : dict LineAttributes) :
  GenerateLineData.build_lines KANSAI TOKYO
  = setitem (GenerateLineData.merge_lines KANSAI TOKYO) "transfer"
      (line "#999999" "Transfer")
  /\ get "transfer" (GenerateLineData.build_lines KANSAI TOKYO)
     = Some (line "#999999" "Transfer")
  /\ count_occ string_dec (keys (GenerateLineData.build_lines KANSAI TOKYO)) "transfer" = 1
  /\ exists line_data,
       ParseWikipediaColors.generate_line_data = Ok line_data
       /\ get "transfer" line_data
          = Some {| color := "#999999"; en := "transfer"; operator := None;
                    source := Some "manual" |}.
Proof.
  split; [reflexivity|].
  split; [apply get_build_lines_transfer|].
  split.
  - apply (proj1 (NoDup_count_occ' string_dec _)).
    + apply wf_build_lines.
    + apply keys_build_lines. auto.
  - assert (H : match ParseWikipediaColors.generate_line_data with
                | Ok d => get "transfer" d
                | Raise _ => None
                end
                = Some {| color := "#999999"; en := "transfer"; operator := None;
                          source := Some "manual" |})
      by (vm_compute; reflexivity).
    destruct ParseWikipediaColors.generate_line_data as [d|e]; [|discriminate].
    exists d. auto.
Qed.

(** C1 as stated fails for parseWikipediaColors: the table it produces
    maps ["transfer"] to an entry whose English label is the key itself
    and which carries a source tag; and when the code-resolved data
    already holds ["transfer"], that entry is kept, not overwritten. *)
Lemma C1_counterexample :
  (exists line_data,
     ParseWikipediaColors.generate_line_data = Ok line_data
     /\ get "transfer" line_data <> Some (line "#999999" "Transfer"))
  /\ (exists line_data,
        ParseWikipediaColors.generate_line_data_with
          [("transfer", "G")] [("G", ("FF9500", "Ginza Line", "Tokyo Metro"))]
          [("transfer", "#999999")] = Ok line_data
        /\ get "transfer" line_data
           = Some {| color := "#FF9500"; en := "Ginza Line";
                     operator := Some "Tokyo Metro"; source := Some "wikipedia" |}).
Proof.
  split.
  - assert (H : match ParseWikipediaColors.generate_line_data with
                | Ok d => get "transfer" d
                | Raise _ => None
                end
                = Some {| color := "#999999"; en := "transfer"; operator := None;
                          source := Some "manual" |})
      by (vm_compute; reflexivity).
    destruct ParseWikipediaColors.generate_line_data as [d|e]; [|discriminate].
    exists d. split; [reflexivity|]. rewrite H. discriminate.
  - eexists. split; reflexivity.
Qed.

(** C2.  The merge of generateLineData is later-wins: for well-formed
    tables [A] and [B] merged in the order [A, B], a key of [B] (whether
    or not [A] has it) is mapped to [B]'s value, and a key of [A] alone
    keeps [A]'s value.  The same holds in the final table for every key
    but the injected ["transfer"]. *)
Theorem C2_override_merge (A B : dict LineAttributes) (k : string) :
  wf A -> wf B ->
  get k (GenerateLineData.merge_lines A B)
  = match get k B with
    | Some vb => Some vb
    | None => get k A
    end
  /\ (k <> "transfer" ->
      get k (GenerateLineData.build_lines A B)
      = match get k B with
        | Some vb => Some vb
        | None => get k A
        end).
Proof.
  intros HA HB. split.
  - now apply get_merge_lines.
  - intros Hk. rewrite get_build_lines_other by exact Hk.
    now apply get_merge_lines.
Qed.

Lemma C2_override_merge_witness :
  wf Examples.sourceA /\ wf Examples.sourceB /\ "X" <> "transfer"
  /\ get "X" (GenerateLineData.merge_lines Examples.sourceA Examples.sourceB)
     = Some (line "#222222" "B")
  /\ get "X" (GenerateLineData.build_lines Examples.sourceA Examples.sourceB)
     = Some (line "#222222" "B").
Proof.
  assert (HA : wf Examples.sourceA) by wf_small.
  assert (HB : wf Examples.sourceB) by wf_small.
  assert (HX : "X" <> "transfer") by discriminate.
  split; [exact HA|]. split; [exact HB|]. split; [exact HX|].
  split.
  - exact (proj1 (C2_override_merge Examples.sourceA Examples.sourceB "X" HA HB)).
  - exact (proj2 (C2_override_merge Examples.sourceA Examples.sourceB "X" HA HB) HX).
Defined.

(** Only [sourceA] has ["Y"]: the merge keeps its value. *)
Example merge_keeps_sole_owner :
  get "Y" (GenerateLineData.merge_lines Examples.sourceA Examples.sourceB)
  = Some (line "#333333" "C").
Proof. reflexivity. Qed.

(** C3.  The merge of parseWikipediaColors is fill-gap: the code-resolved
    table is built without error, and in the returned table a key the
    code-resolved table already has keeps that value unchanged, while a
    key it lacks is added from ADDITIONAL_COLORS with the manual entry
    (that color, the key itself as English name, no operator). *)
Theorem C3_fill_gap (J : dict string) (W : dict ParseWikipediaColors.CodeRow)
    (A : dict string) :
  exists primary out,
    ParseWikipediaColors.resolve_by_code J W = Ok primary
    /\ ParseWikipediaColors.generate_line_data_with J W A = Ok out
    /\ forall k,
         get k out
         = match get k primary with
           | Some v => Some v
           | None =>
               match get k A with
               | Some c => Some {| color := c; en := k; operator := None;
                                   source := Some "manual" |}
               | None => None
               end
           end.
Proof.
  destruct (resolve_loop_keys W (items J) []) as (primary & Hrun & _).
  exists primary, (ParseWikipediaColors.fill_gaps A primary).
  unfold ParseWikipediaColors.generate_line_data_with,
    ParseWikipediaColors.resolve_by_code.
  rewrite Hrun. repeat split. intros k. apply get_fill_gaps.
Qed.

(** The fill-gap example: ["LineA"] is claimed by the primary source
    and keeps its value, ["Y"] is added from the secondary one. *)
Example fill_gap_example :
  ParseWikipediaColors.generate_line_data_with
    Examples.codeSource Examples.codeTable Examples.secondary
  = Ok [("LineA", {| color := "#FF9500"; en := "Ginza Line";
                     operator := Some "Tokyo Metro"; source := Some "wikipedia" |});
        ("Y", {| color := "#333333"; en := "Y"; operator := None;
                 source := Some "manual" |})].
Proof. reflexivity. Qed.

(** C4.  Code resolution: for a well-formed code source, every pair
    (key, code) whose code is in the code table is mapped, in the
    code-resolved table and in the returned table, to the attributes
    with color ["#"] followed by the row's hex value, the row's English
    name, the row's operator and the source tag ["wikipedia"]. *)
Theorem C4_resolve_by_code (J : dict string) (W : dict ParseWikipediaColors.CodeRow)
    (A : dict string) (k code hex_color en_name op : string) :
  wf J ->
  get k J = Some code ->
  get code W = Some (hex_color, en_name, op) ->
  exists primary out,
    ParseWikipediaColors.resolve_by_code J W = Ok primary
    /\ ParseWikipediaColors.generate_line_data_with J W A = Ok out
    /\ get k primary
       = Some {| color := "#" ++ hex_color; en := en_name;
                 operator := Some op; source := Some "wikipedia" |}
    /\ get k out
       = Some {| color := "#" ++ hex_color; en := en_name;
                 operator := Some op; source := Some "wikipedia" |}.
Proof.
  intros HJ Hk Hcode.
  destruct (resolve_loop_get W (items J) [] HJ) as (primary & Hrun & Hget).
  exists primary, (ParseWikipediaColors.fill_gaps A primary).
  unfold ParseWikipediaColors.generate_line_data_with,
    ParseWikipediaColors.resolve_by_code.
  rewrite Hrun.
  assert (Hp : get k primary
               = Some {| color := "#" ++ hex_color; en := en_name;
                         operator := Some op; source := Some "wikipedia" |}).
  { rewrite Hget. unfold items. rewrite Hk, Hcode. reflexivity. }
  repeat split; [exact Hp|].
  rewrite get_fill_gaps, Hp. reflexivity.
Qed.

Lemma C4_resolve_by_code_witness :
  wf Examples.codeSource
  /\ get "LineA" Examples.codeSource = Some "G"
  /\ get "G" Examples.codeTable = Some ("FF9500", "Ginza Line", "Tokyo Metro")
  /\ exists primary out,
       ParseWikipediaColors.resolve_by_code Examples.codeSource Examples.codeTable
       = Ok primary
       /\ ParseWikipediaColors.generate_line_data_with
            Examples.codeSource Examples.codeTable Examples.secondary = Ok out
       /\ get "LineA" primary
          = Some {| color := "#FF9500"; en := "Ginza Line";
                    operator := Some "Tokyo Metro"; source := Some "wikipedia" |}
       /\ get "LineA" out
          = Some {| color := "#FF9500"; en := "Ginza Line";
                    operator := Some "Tokyo Metro"; source := Some "wikipedia" |}.
Proof.
  assert (HJ : wf Examples.codeSource) by wf_small.
  split; [exact HJ|]. split; [reflexivity|]. split; [reflexivity|].
  exact (C4_resolve_by_code Examples.codeSource Examples.codeTable Examples.secondary
           "LineA" "G" "FF9500" "Ginza Line" "Tokyo Metro"
           HJ eq_refl eq_refl).
Defined.

(** C5.  Unresolvable codes: for a well-formed code source, a key whose
    code is absent from the code table raises nothing and gets no entry
    in the code-resolved table. *)
Theorem C5_unresolved_code_dropped (J : dict string)
    (W : dict ParseWikipediaColors.CodeRow) (A : dict string) (k code : string) :
  wf J ->
  get k J = Some code ->
  get code W = None ->
  exists primary,
    ParseWikipediaColors.resolve_by_code J W = Ok primary
    /\ get k primary = None
    /\ ~ In k (keys primary)
    /\ ParseWikipediaColors.generate_line_data_with J W A
       = Ok (ParseWikipediaColors.fill_gaps A primary).
Proof.
  intros HJ Hk Hcode.
  destruct (resolve_loop_get W (items J) [] HJ) as (primary & Hrun & Hget).
  exists primary.
  assert (Hp : get k primary = None).
  { rewrite Hget. unfold items. rewrite Hk, Hcode. reflexivity. }
  unfold ParseWikipediaColors.generate_line_data_with,
    ParseWikipediaColors.resolve_by_code.
  rewrite Hrun. repeat split; [exact Hp|].
  now apply get_None_keys.
Qed.

Lemma C5_unresolved_code_dropped_witness :
  wf Examples.codeSource
  /\ get "LineB" Examples.codeSource = Some "ZZ"
  /\ get "ZZ" Examples.codeTable = None
  /\ exists primary,
       ParseWikipediaColors.resolve_by_code Examples.codeSource Examples.codeTable
       = Ok primary
       /\ get "LineB" primary = None
       /\ ~ In "LineB" (keys primary)
       /\ ParseWikipediaColors.generate_line_data_with
            Examples.codeSource Examples.codeTable Examples.secondary
          = Ok (ParseWikipediaColors.fill_gaps Examples.secondary primary).
Proof.
  assert (HJ : wf Examples.codeSource) by wf_small.
  split; [exact HJ|]. split; [reflexivity|]. split; [reflexivity|].
  exact (C5_unresolved_code_dropped Examples.codeSource Examples.codeTable
           Examples.secondary "LineB" "ZZ" HJ eq_refl eq_refl).
Defined.

(** C6.  Color format: in the table each script produces from its
    literal sources, every entry's color is ['#'] followed by exactly
    six hexadecimal digits. *)
Theorem C6_color_format :
  Forall (fun kv => is_color (color (snd kv)) = true)
    (items GenerateLineData.all_lines)
  /\ exists line_data,
       ParseWikipediaColors.generate_line_data = Ok line_data
       /\ Forall (fun kv => is_color (color (snd kv)) = true) (items line_data).
Proof.
  split.
  - apply Forall_forall, forallb_forall. vm_compute. reflexivity.
  - assert (H : match ParseWikipediaColors.generate_line_data with
                | Ok d => forallb (fun kv => is_color (color (snd kv))) (items d)
                | Raise _ => false
                end = true)
      by (vm_compute; reflexivity).
    destruct ParseWikipediaColors.generate_line_data as [d|e]; [|discriminate].
    exists d. split; [reflexivity|].
    apply Forall_forall, forallb_forall, H.
Qed.

(** C7.  Determinism: started from any two worlds in which the output
    path can be written (whatever the file held before, whatever was
    printed before), each script succeeds, leaves in its output file the
    same bytes -- the serialization of the one table it builds -- and
    prints the same lines; running it again on the world it left
    rewrites the file with the same bytes. *)
Theorem C7_deterministic_output (script_dir : string) (w1 w2 : world) :
  writable (GenerateLineData.output_path script_dir) w1 = true ->
  writable (GenerateLineData.output_path script_dir) w2 = true ->
  writable (ParseWikipediaColors.output_path script_dir) w1 = true ->
  writable (ParseWikipediaColors.output_path script_dir) w2 = true ->
  (exists w1' w2' w1'' printed,
     GenerateLineData.main script_dir w1 = Ok w1'
     /\ GenerateLineData.main script_dir w2 = Ok w2'
     /\ GenerateLineData.main script_dir w1' = Ok w1''
     /\ read_text (GenerateLineData.output_path script_dir) w1'
        = Some (dumps GenerateLineData.all_lines)
     /\ read_text (GenerateLineData.output_path script_dir) w2'
        = read_text (GenerateLineData.output_path script_dir) w1'
     /\ read_text (GenerateLineData.output_path script_dir) w1''
        = read_text (GenerateLineData.output_path script_dir) w1'
     /\ stdout w1' = List.app (stdout w1) printed
     /\ stdout w2' = List.app (stdout w2) printed
     /\ stdout w1'' = List.app (stdout w1') printed)
  /\ (exists line_data w1' w2' w1'' printed,
        ParseWikipediaColors.generate_line_data = Ok line_data
        /\ ParseWikipediaColors.main script_dir w1 = Ok w1'
        /\ ParseWikipediaColors.main script_dir w2 = Ok w2'
        /\ ParseWikipediaColors.main script_dir w1' = Ok w1''
        /\ read_text (ParseWikipediaColors.output_path script_dir) w1'
           = Some (dumps line_data)
        /\ read_text (ParseWikipediaColors.output_path script_dir) w2'
           = read_text (ParseWikipediaColors.output_path script_dir) w1'
        /\ read_text (ParseWikipediaColors.output_path script_dir) w1''
           = read_text (ParseWikipediaColors.output_path script_dir) w1'
        /\ stdout w1' = List.app (stdout w1) printed
        /\ stdout w2' = List.app (stdout w2) printed
        /\ stdout w1'' = List.app (stdout w1') printed).
Proof.
  intros HA1 HA2 HB1 HB2. split.
  - destruct (runs_agree (GenerateLineData.main script_dir)
                (GenerateLineData.output_path script_dir)
                (dumps GenerateLineData.all_lines) _
                (fun w => main_with_writes GenerateLineData.KANSAI_LINES
                            GenerateLineData.TOKYO_LINES script_dir w)
                w1 w2 HA1 HA2)
      as (w1' & w2' & w1'' & H).
    exists w1', w2', w1''. eexists. exact H.
  - destruct (resolve_loop_keys ParseWikipediaColors.WIKIPEDIA_COLORS
                (items ParseWikipediaColors.JAPANESE_TO_WIKI) [])
      as (primary & Hres & _).
    assert (Hgen : ParseWikipediaColors.generate_line_data
                   = Ok (ParseWikipediaColors.fill_gaps
                           ParseWikipediaColors.ADDITIONAL_COLORS primary)).
    { unfold ParseWikipediaColors.generate_line_data,
        ParseWikipediaColors.generate_line_data_with,
        ParseWikipediaColors.resolve_by_code.
      rewrite Hres. reflexivity. }
    destruct (runs_agree (ParseWikipediaColors.main script_dir)
                (ParseWikipediaColors.output_path script_dir) _ _
                (fun w => main_with_writes_colors _ _ _ script_dir w _ Hgen)
                w1 w2 HB1 HB2)
      as (w1' & w2' & w1'' & H).
    eexists. exists w1', w2', w1''. eexists. split; [exact Hgen|]. exact H.
Qed.

Lemma C7_deterministic_output_witness :
  writable (GenerateLineData.output_path "scripts") Examples.empty_world = true
  /\ writable (GenerateLineData.output_path "scripts") Examples.used_world = true
  /\ writable (ParseWikipediaColors.output_path "scripts") Examples.empty_world = true
  /\ writable (ParseWikipediaColors.output_path "scripts") Examples.used_world = true
  /\ (exists w1' w2',
        GenerateLineData.main "scripts" Examples.empty_world = Ok w1'
        /\ GenerateLineData.main "scripts" Examples.used_world = Ok w2'
        /\ read_text "scripts/../public/japan_line_data.json" w2'
           = read_text "scripts/../public/japan_line_data.json" w1')
  /\ (exists w1' w2',
        ParseWikipediaColors.main "scripts" Examples.empty_world = Ok w1'
        /\ ParseWikipediaColors.main "scripts" Examples.used_world = Ok w2'
        /\ read_text "scripts/../public/japan_line_colors.json" w2'
           = read_text "scripts/../public/japan_line_colors.json" w1').
Proof.
  split; [reflexivity|]. split; [reflexivity|].
  split; [reflexivity|]. split; [reflexivity|].
  destruct (C7_deterministic_output "scripts" Examples.empty_world Examples.used_world
              eq_refl eq_refl eq_refl eq_refl)
    as [(a1 & a2 & a3 & pa & Ha1 & Ha2 & _ & _ & Ha5 & _)
        (d & b1 & b2 & b3 & pb & _ & Hb1 & Hb2 & _ & _ & Hb5 & _)].
  split.
  - exists a1, a2. repeat split; assumption.
  - exists b1, b2. repeat split; assumption.
Defined.

(** C8.  Completeness.  In generateLineData the keys of the built table
    are exactly the keys of the Kansai table, the keys of the Tokyo table
    and ["transfer"].  In parseWikipediaColors the keys of the returned
    table are exactly the keys of the code source whose code is in the
    code table, and the keys of the additional colors: a key is left
    out only when its code does not resolve (and the additional colors
    do not have it either). *)
Theorem C8_completeness (KANSAI TOKYO : dict LineAttributes) (J : dict string)
    (W : dict ParseWikipediaColors.CodeRow) (A : dict string) :
  (forall k,
     In k (keys (GenerateLineData.build_lines KANSAI TOKYO)) <->
     In k (keys KANSAI) \/ In k (keys TOKYO) \/ k = "transfer")
  /\ exists out,
       ParseWikipediaColors.generate_line_data_with J W A = Ok out
       /\ forall k,
            In k (keys out) <->
            (exists code, In (k, code) (items J) /\ contains code W = true)
            \/ In k (keys A).
Proof.
  split.
  - intros k. apply keys_build_lines.
  - destruct (resolve_loop_keys W (items J) []) as (primary & Hrun & Hkeys).
    exists (ParseWikipediaColors.fill_gaps A primary).
    unfold ParseWikipediaColors.generate_line_data_with,
      ParseWikipediaColors.resolve_by_code.
    rewrite Hrun. split; [reflexivity|].
    intros k. rewrite keys_fill_gaps, Hkeys. simpl. tauto.
Qed.

(** On the literal tables: the two key sets of generateLineData have
    129 and 114 members and share one, so the built table has
    129 + 114 - 1 + 1 entries. *)
Example all_lines_size :
  len GenerateLineData.TOKYO_LINES = 129
  /\ len GenerateLineData.KANSAI_LINES = 114
  /\ len GenerateLineData.all_lines = 243.
Proof. vm_compute. auto. Qed.

(** C9.  Tokyo over Kansai: every key that both literal tables have is
    mapped by the built table to the Tokyo table's value. *)
Theorem C9_tokyo_precedence (k : string) (v : LineAttributes) :
  contains k GenerateLineData.KANSAI_LINES = true ->
  get k GenerateLineData.TOKYO_LINES = Some v ->
  get k GenerateLineData.all_lines = Some v.
Proof.
  intros _ HT.
  assert (Hk : k <> "transfer").
  { intros ->. rewrite TOKYO_LINES_no_transfer in HT. discriminate. }
  unfold GenerateLineData.all_lines.
  rewrite get_build_lines_other by exact Hk.
  rewrite get_merge_lines by (apply wf_KANSAI_LINES || apply wf_TOKYO_LINES).
  rewrite HT. reflexivity.
Qed.

Lemma C9_tokyo_precedence_witness :
  contains "中央線" GenerateLineData.KANSAI_LINES = true
  /\ get "中央線" GenerateLineData.TOKYO_LINES = Some (line "#FF4500" "Chuo Line")
  /\ get "中央線" GenerateLineData.all_lines = Some (line "#FF4500" "Chuo Line").
Proof.
  assert (HK : contains "中央線" GenerateLineData.KANSAI_LINES = true)
    by (vm_compute; reflexivity).
  assert (HT : get "中央線" GenerateLineData.TOKYO_LINES
               = Some (line "#FF4500" "Chuo Line"))
    by (vm_compute; reflexivity).
  split; [exact HK|]. split; [exact HT|].
  exact (C9_tokyo_precedence "中央線" (line "#FF4500" "Chuo Line") HK HT).
Defined.

(** The one shared key, and the Kansai value that loses. *)
Example shared_keys :
  filter (fun k => contains k GenerateLineData.KANSAI_LINES)
    (keys GenerateLineData.TOKYO_LINES) = ["中央線"]
  /\ get "中央線" GenerateLineData.KANSAI_LINES = Some (line "#019a66" "Chuo Line").
Proof. vm_compute. auto. Qed.

(** C10.  Provenance: in the table parseWikipediaColors returns, every
    entry's source is ["wikipedia"] or ["manual"], and an entry tagged
    ["manual"] has its own key as English name and no operator. *)
Theorem C10_provenance (J : dict string) (W : dict ParseWikipediaColors.CodeRow)
    (A : dict string) :
  exists out,
    ParseWikipediaColors.generate_line_data_with J W A = Ok out
    /\ Forall (fun kv =>
                 (source (snd kv) = Some "wikipedia" \/ source (snd kv) = Some "manual")
                 /\ (source (snd kv) = Some "manual" ->
                     en (snd kv) = fst kv /\ operator (snd kv) = None))
         (items out).
Proof.
  set (P := fun kv : string * LineAttributes =>
              (source (snd kv) = Some "wikipedia" \/ source (snd kv) = Some "manual")
              /\ (source (snd kv) = Some "manual" ->
                  en (snd kv) = fst kv /\ operator (snd kv) = None)).
  destruct (resolve_loop_Forall W P (items J) []) as (primary & Hrun & HP).
  - intros ja h e o. unfold P. simpl. split; [auto | discriminate].
  - constructor.
  - exists (ParseWikipediaColors.fill_gaps A primary).
    unfold ParseWikipediaColors.generate_line_data_with,
      ParseWikipediaColors.resolve_by_code.
    rewrite Hrun. split; [reflexivity|].
    apply fill_gaps_Forall; [|exact HP].
    intros ja c. unfold P. simpl. auto.
Qed.

(** On the literal tables: 159 entries come from the code table and 80
    from the additional colors. *)
Example line_data_counts :
  match ParseWikipediaColors.generate_line_data with
  | Ok line_data =>
      (len line_data,
       ParseWikipediaColors.count_source "wikipedia" line_data,
       ParseWikipediaColors.count_source "manual" line_data)
  | Raise _ => (0, 0, 0)
  end = (239, 159, 80).
Proof. vm_compute. reflexivity. Qed.


(** * Further properties of the two scripts *)

(** ** Insertion order and repeated keys *)

Section DictOrder.
Context {V : Type}.
Implicit Types (d other : dict V) (k : string) (v : V).

Lemma contains_setitem d k v k' :
  contains k' (setitem d k v) = String.eqb k k' || contains k' d.
Proof.
  unfold contains. destruct (String.eqb_spec k k') as [->|Hne].
  - now rewrite get_setitem_eq.
  - rewrite get_setitem_ne by congruence. reflexivity.
Qed.

Lemma keys_setitem_order d k v :
  keys (setitem d k v) = if contains k d then keys d else (keys d ++ [k])%list.
Proof.
  unfold contains. induction d as [|[k0 v0] d IH]; simpl; [reflexivity|].
  destruct (String.eqb_spec k0 k) as [->|Hk]; simpl; [reflexivity|].
  rewrite IH. now destruct (get k d).
Qed.

Lemma get_app d1 d2 k :
  get k (d1 ++ d2)%list
  = match get k d1 with
    | Some v => Some v
    | None => get k d2
    end.
Proof.
  induction d1 as [|[k0 v0] d1 IH]; simpl; [reflexivity|].
  now destruct (String.eqb k0 k).
Qed.

Lemma contains_app d1 d2 k :
  contains k (d1 ++ d2)%list = contains k d1 || contains k d2.
Proof. unfold contains. rewrite get_app. now destruct (get k d1). Qed.

(** Assigning the entries of any list one after the other: the last
    entry of a key decides its value. *)
Lemma get_fold_setitem (entries : list (string * V)) d k :
  get k (fold_left (fun acc kv => setitem acc (fst kv) (snd kv)) entries d)
  = match get k (rev entries) with
    | Some v => Some v
    | None => get k d
    end.
Proof.
  revert d. induction entries as [|[k0 v0] entries IH]; intros d; [reflexivity|].
  cbn [fold_left rev fst snd]. rewrite IH, get_app.
  destruct (get k (rev entries)); [reflexivity|].
  cbn [get]. destruct (String.eqb_spec k0 k) as [->|Hk].
  - apply get_setitem_eq.
  - apply get_setitem_ne. congruence.
Qed.

Lemma filter_not_contains_setitem d k v (ks : list string) :
  ~ In k ks ->
  filter (fun k' => negb (contains k' (setitem d k v))) ks
  = filter (fun k' => negb (contains k' d)) ks.
Proof.
  intros Hk. apply filter_ext_in. intros k' Hin.
  rewrite contains_setitem.
  destruct (String.eqb_spec k k') as [->|_]; [contradiction | reflexivity].
Qed.

(** [update] keeps the keys of [d] where they are and appends the new
    keys of [other] in [other]'s order. *)
Lemma keys_update_order d other :
  wf other ->
  keys (update d other)
  = (keys d ++ filter (fun k => negb (contains k d)) (keys other))%list.
Proof.
  unfold update, items, wf. revert d.
  induction other as [|[k0 v0] o IH]; intros d Hnd.
  - simpl. now rewrite app_nil_r.
  - change (keys ((k0, v0) :: o)) with (k0 :: keys o) in *.
    inversion Hnd as [|? ? Hnotin Hnd']; subst.
    cbn [fold_left fst snd filter].
    rewrite (IH _ Hnd').
    rewrite (filter_not_contains_setitem d k0 v0 (keys o) Hnotin).
    rewrite keys_setitem_order.
    destruct (contains k0 d); cbn [negb].
    + reflexivity.
    + now rewrite <- app_assoc.
Qed.

Lemma contains_update d other k :
  contains k (update d other) = contains k d || contains k other.
Proof.
  destruct (contains k (update d other)) eqn:E.
  - apply contains_keys, keys_update in E. symmetry. apply orb_true_iff.
    destruct E as [E|E]; apply contains_keys in E; auto.
  - symmetry. apply orb_false_iff.
    split; apply not_true_is_false; intros H; apply contains_keys in H;
      assert (H' : In k (keys (update d other))) by (apply keys_update; auto);
      apply contains_keys in H'; congruence.
Qed.

Lemma Forall_update (P : string * V -> Prop) d other :
  Forall P (items d) -> Forall P (items other) -> Forall P (items (update d other)).
Proof.
  unfold update, items. revert d.
  induction other as [|[k0 v0] o IH]; simpl; intros d Hd Ho; [exact Hd|].
  inversion Ho; subst. apply IH; [|assumption].
  now apply (Forall_setitem P d k0 v0).
Qed.
End DictOrder.

Lemma filter_true {A : Type} (l : list A) : filter (fun _ => true) l = l.
Proof. induction l as [|a l IH]; simpl; [reflexivity | now rewrite IH]. Qed.

(** X5.  A dictionary display with a repeated key: looking a key up
    gives the value of its last entry, and the display holds exactly
    the keys written in it, each once.  The same last-wins rule holds
    for [update] with any list of items. *)
Theorem X5_display_last_entry_wins {V : Type} (entries : list (string * V))
    (d : dict V) (k : string) :
  get k (display entries) = get k (rev entries)
  /\ (In k (keys (display entries)) <-> In k (map fst entries))
  /\ wf (display entries)
  /\ get k (update d entries)
     = match get k (rev entries) with
       | Some v => Some v
       | None => get k d
       end.
Proof.
  split; [|split; [|split]].
  - unfold display. rewrite get_fold_setitem. now destruct (get k (rev entries)).
  - unfold display. rewrite (keys_update [] entries k). simpl. tauto.
  - apply wf_display.
  - apply get_fold_setitem.
Qed.

(** The code source of parseWikipediaColors writes one key twice, first
    with the JR code, then with the Osaka Metro code: the table holds
    the second. *)
Example chuo_line_code :
  filter (fun kv => String.eqb (fst kv) "中央線")
    ParseWikipediaColors.JAPANESE_TO_WIKI_entries
  = [("中央線", "JC"); ("中央線", "MC")]
  /\ get "中央線" ParseWikipediaColors.JAPANESE_TO_WIKI = Some "MC".
Proof. vm_compute. auto. Qed.

(** X1.  Key order of the generateLineData table: the Kansai keys in
    their order, then the Tokyo keys the Kansai table lacks in their
    order, then ["transfer"] unless one of the tables already has it (in
    which case it stays where it was). *)
Theorem X1_build_lines_key_order (KANSAI TOKYO : dict LineAttributes) :
  wf KANSAI -> wf TOKYO ->
  keys (GenerateLineData.build_lines KANSAI TOKYO)
  = (keys KANSAI
     ++ filter (fun k => negb (contains k KANSAI)) (keys TOKYO)
     ++ (if contains "transfer" KANSAI || contains "transfer" TOKYO
         then [] else ["transfer"]))%list.
Proof.
  intros HK HT. unfold GenerateLineData.build_lines, GenerateLineData.merge_lines.
  rewrite keys_setitem_order, !contains_update.
  rewrite (keys_update_order _ TOKYO HT), (keys_update_order [] KANSAI HK).
  change (keys (@nil (string * LineAttributes))) with (@nil string).
  change (contains "transfer" (@nil (string * LineAttributes))) with false.
  cbn [app orb].
  rewrite (filter_ext _ (fun _ => true)) by reflexivity.
  rewrite filter_true.
  rewrite (filter_ext (fun k => negb (contains k (update [] KANSAI)))
             (fun k => negb (contains k KANSAI)))
    by (intros k; now rewrite contains_update).
  destruct (contains "transfer" KANSAI || contains "transfer" TOKYO).
  - now rewrite app_nil_r.
  - now rewrite <- app_assoc.
Qed.

Lemma X1_build_lines_key_order_witness :
  wf Examples.sourceA /\ wf Examples.sourceB
  /\ keys (GenerateLineData.build_lines Examples.sourceB Examples.sourceA)
     = ["X"; "Y"; "transfer"].
Proof.
  assert (HA : wf Examples.sourceA) by wf_small.
  assert (HB : wf Examples.sourceB) by wf_small.
  split; [exact HA|]. split; [exact HB|].
  exact (X1_build_lines_key_order Examples.sourceB Examples.sourceA HB HA).
Defined.

(** ** parseWikipediaColors: the shape of the returned table *)

Section ParseWikipediaColorsShape.
Import ParseWikipediaColors.
Implicit Types (J A : dict string) (W : dict CodeRow) (k : string)
  (output : dict LineAttributes).

Lemma resolve_step_entry W output ja_name wiki_code :
  resolve_step W output (ja_name, wiki_code)
  = Ok match get wiki_code W with
       | Some row => setitem output ja_name (wikipedia_entry row)
       | None => output
       end.
Proof.
  rewrite resolve_step_ok.
  destruct (get wiki_code W) as [[[h e] o]|]; reflexivity.
Qed.

(** On entries with pairwise distinct keys that the table does not hold
    yet, the first loop appends one entry per resolvable code. *)
Lemma resolve_loop_struct W (entries : list (string * string)) output :
  NoDup (map fst entries) ->
  (forall k, In k (map fst entries) -> ~ In k (keys output)) ->
  for_each (resolve_step W) entries output
  = Ok (output
        ++ flat_map (fun kv => match get (snd kv) W with
                               | Some row => [(fst kv, wikipedia_entry row)]
                               | None => []
                               end) entries)%list.
Proof.
  revert output.
  induction entries as [|[ja code] entries IH]; intros output Hnd Hfresh.
  - simpl. now rewrite app_nil_r.
  - cbn [for_each flat_map fst snd]. rewrite resolve_step_entry. cbn [bind].
    cbn [map fst] in Hnd, Hfresh.
    inversion Hnd as [|? ? Hnotin Hnd']; subst.
    destruct (get code W) as [row|].
    + rewrite setitem_fresh by (apply Hfresh; now left).
      rewrite IH; [now rewrite <- app_assoc | exact Hnd' |].
      intros k Hk. unfold keys. rewrite map_app, in_app_iff. simpl.
      intros [H|[<-|[]]].
      * apply (Hfresh k); [now right | exact H].
      * contradiction.
    + rewrite IH; [reflexivity | exact Hnd' |].
      intros k Hk. apply Hfresh. now right.
Qed.

(** On additional colors with pairwise distinct keys, the second loop
    appends one manual entry per key the table lacks. *)
Lemma fill_gaps_struct A output :
  wf A ->
  fill_gaps A output
  = (output
     ++ map (fun kv => (fst kv, manual_entry (fst kv) (snd kv)))
          (filter (fun kv => negb (contains (fst kv) output)) (items A)))%list.
Proof.
  unfold fill_gaps, items, wf. revert output.
  induction A as [|[ja c] A IH]; intros output Hnd.
  - simpl. now rewrite app_nil_r.
  - change (keys ((ja, c) :: A)) with (ja :: keys A) in Hnd.
    inversion Hnd as [|? ? Hnotin Hnd']; subst.
    cbn [fold_left fill_step filter fst snd].
    destruct (contains ja output) eqn:E; cbn [negb].
    + apply IH, Hnd'.
    + rewrite setitem_fresh
        by (intros Hin; apply contains_keys in Hin; congruence).
      rewrite (IH _ Hnd').
      rewrite (filter_ext_in _ (fun kv => negb (contains (fst kv) output)) A).
      * cbn [map fst snd]. now rewrite <- app_assoc.
      * intros [k' c'] Hin. cbn [fst]. rewrite contains_app.
        unfold contains at 2. cbn [get].
        destruct (String.eqb_spec ja k') as [->|_].
        -- exfalso. apply Hnotin. change (In (fst (k', c')) (map fst A)).
           now apply in_map.
        -- now rewrite orb_false_r.
Qed.

(** Whatever the additional colors are, the second loop only appends
    entries tagged manual. *)
Lemma fill_gaps_appends A output :
  exists added,
    fill_gaps A output = (output ++ added)%list
    /\ Forall (fun kv => source (snd kv) = Some "manual") added.
Proof.
  unfold fill_gaps, items. revert output.
  induction A as [|[ja c] A IH]; intros output.
  - exists []. simpl. now rewrite app_nil_r.
  - cbn [fold_left fill_step].
    destruct (contains ja output) eqn:E; cbn [negb].
    + apply IH.
    + rewrite setitem_fresh
        by (intros Hin; apply contains_keys in Hin; congruence).
      destruct (IH (output ++ [(ja, {| color := c; en := ja; operator := None;
                                       source := Some "manual" |})])%list)
        as (added & Heq & Hall).
      eexists. rewrite Heq, <- app_assoc. split; [reflexivity|].
      constructor; [reflexivity | exact Hall].
Qed.

Lemma count_source_app tag (d1 d2 : dict LineAttributes) :
  count_source tag (d1 ++ d2)%list = count_source tag d1 + count_source tag d2.
Proof.
  unfold count_source, values. now rewrite map_app, filter_app, length_app.
Qed.

Lemma count_source_all tag (d : dict LineAttributes) :
  Forall (fun kv => source (snd kv) = Some tag) d -> count_source tag d = len d.
Proof.
  unfold count_source, values, len.
  induction 1 as [|[k v] d Hv _ IH]; simpl; [reflexivity|].
  simpl in Hv. rewrite Hv, String.eqb_refl. simpl. now rewrite IH.
Qed.

Lemma count_source_none tag other (d : dict LineAttributes) :
  other <> tag ->
  Forall (fun kv => source (snd kv) = Some other) d -> count_source tag d = 0.
Proof.
  intros Hne. unfold count_source, values.
  induction 1 as [|[k v] d Hv _ IH]; simpl; [reflexivity|].
  simpl in Hv. rewrite Hv.
  destruct (String.eqb_spec other tag); [contradiction | exact IH].
Qed.

(** Invariants of dictionaries that assignment preserves survive both
    loops. *)
Lemma resolve_loop_inv W (Q : dict LineAttributes -> Prop)
    (entries : list (string * string)) output :
  (forall d k v, Q d -> Q (setitem d k v)) ->
  Q output ->
  exists out, for_each (resolve_step W) entries output = Ok out /\ Q out.
Proof.
  intros HQ. revert output.
  induction entries as [|[ja code] entries IH]; intros output Hout.
  - simpl. eauto.
  - cbn [for_each]. rewrite resolve_step_entry. cbn [bind]. apply IH.
    destruct (get code W); auto.
Qed.

Lemma fill_gaps_inv (Q : dict LineAttributes -> Prop) A output :
  (forall d k v, Q d -> Q (setitem d k v)) ->
  Q output -> Q (fill_gaps A output).
Proof.
  intros HQ. unfold fill_gaps, items. revert output.
  induction A as [|[ja c] A IH]; intros output Hout; [exact Hout|].
  cbn [fold_left fill_step]. apply IH.
  destruct (contains ja output); cbn [negb]; auto.
Qed.

Lemma generate_line_data_with_eq J W A primary :
  resolve_by_code J W = Ok primary ->
  generate_line_data_with J W A = Ok (fill_gaps A primary).
Proof. intros H. unfold generate_line_data_with. now rewrite H. Qed.
End ParseWikipediaColorsShape.

(** X2.  For a well-formed code source the code-resolved table is the
    code source filtered and mapped in place: one entry per key whose
    code is in the code table, in the code source's order, nothing
    else. *)
Theorem X2_resolve_by_code_shape (J : dict string)
    (W : dict ParseWikipediaColors.CodeRow) :
  wf J ->
  ParseWikipediaColors.resolve_by_code J W
  = Ok (flat_map (fun kv => match get (snd kv) W with
                            | Some row => [(fst kv, wikipedia_entry row)]
                            | None => []
                            end) (items J)).
Proof.
  intros HJ. unfold ParseWikipediaColors.resolve_by_code.
  rewrite (resolve_loop_struct W (items J) [] HJ); [reflexivity|].
  intros k _ [].
Qed.

Lemma X2_resolve_by_code_shape_witness :
  wf Examples.codeSource
  /\ ParseWikipediaColors.resolve_by_code Examples.codeSource Examples.codeTable
     = Ok [("LineA", wikipedia_entry ("FF9500", "Ginza Line", "Tokyo Metro"))].
Proof.
  assert (HJ : wf Examples.codeSource) by wf_small.
  split; [exact HJ|].
  exact (X2_resolve_by_code_shape Examples.codeSource Examples.codeTable HJ).
Defined.

(** X3.  For well-formed additional colors the returned table is the
    code-resolved table, unchanged and in front, followed by one manual
    entry for each additional key the code-resolved table lacks, in the
    order of the additional colors. *)
Theorem X3_fill_gaps_appends (J : dict string)
    (W : dict ParseWikipediaColors.CodeRow) (A : dict string) :
  wf A ->
  exists primary,
    ParseWikipediaColors.resolve_by_code J W = Ok primary
    /\ ParseWikipediaColors.generate_line_data_with J W A
       = Ok (primary
             ++ map (fun kv => (fst kv, manual_entry (fst kv) (snd kv)))
                  (filter (fun kv => negb (contains (fst kv) primary)) (items A)))%list.
Proof.
  intros HA.
  destruct (resolve_loop_keys W (items J) []) as (primary & Hrun & _).
  exists primary. split; [exact Hrun|].
  rewrite (generate_line_data_with_eq J W A primary Hrun).
  now rewrite fill_gaps_struct.
Qed.

Lemma X3_fill_gaps_appends_witness :
  wf Examples.secondary
  /\ exists primary,
       ParseWikipediaColors.resolve_by_code Examples.codeSource Examples.codeTable
       = Ok primary
       /\ ParseWikipediaColors.generate_line_data_with
            Examples.codeSource Examples.codeTable Examples.secondary
          = Ok (primary
                ++ map (fun kv => (fst kv, manual_entry (fst kv) (snd kv)))
                     (filter (fun kv => negb (contains (fst kv) primary))
                        (items Examples.secondary)))%list.
Proof.
  assert (HA : wf Examples.secondary) by wf_small.
  split; [exact HA|].
  exact (X3_fill_gaps_appends Examples.codeSource Examples.codeTable
           Examples.secondary HA).
Defined.

(** X4.  The summary parseWikipediaColors prints adds up: when the
    output path can be written, the three printed lines give the size
    of the table, the number of entries tagged wikipedia -- which is
    the size of the code-resolved table -- and the number tagged
    manual, and the two counts sum to the size. *)
Theorem X4_summary_adds_up (J : dict string) (W : dict ParseWikipediaColors.CodeRow)
    (A : dict string) (script_dir : string) (w : world) :
  writable (ParseWikipediaColors.output_path script_dir) w = true ->
  exists primary w' total wiki_count manual_count,
    ParseWikipediaColors.resolve_by_code J W = Ok primary
    /\ ParseWikipediaColors.main_with J W A script_dir w = Ok w'
    /\ stdout w'
       = List.app (stdout w)
           ["Generated " ++ ParseWikipediaColors.output_path script_dir ++ " with "
            ++ str_of_nat total ++ " line entries";
            "  - From Wikipedia: " ++ str_of_nat wiki_count;
            "  - Manual additions: " ++ str_of_nat manual_count]
    /\ wiki_count = len primary
    /\ wiki_count + manual_count = total.
Proof.
  intros Hw.
  destruct (resolve_loop_Forall W (fun kv => source (snd kv) = Some "wikipedia")
              (items J) []) as (primary & Hrun & Hwiki).
  { reflexivity. }
  { constructor. }
  destruct (fill_gaps_appends A primary) as (added & Hfill & Hmanual).
  pose proof (generate_line_data_with_eq J W A primary Hrun) as Hgen.
  destruct (main_with_writes_colors J W A script_dir w _ Hgen Hw)
    as (w' & Hmain & _ & _ & Hout).
  exists primary, w', (len (ParseWikipediaColors.fill_gaps A primary)),
    (ParseWikipediaColors.count_source "wikipedia"
       (ParseWikipediaColors.fill_gaps A primary)),
    (ParseWikipediaColors.count_source "manual"
       (ParseWikipediaColors.fill_gaps A primary)).
  split; [exact Hrun|]. split; [exact Hmain|]. split; [exact Hout|].
  rewrite Hfill, !count_source_app.
  rewrite (count_source_all "wikipedia" primary Hwiki).
  rewrite (count_source_all "manual" added Hmanual).
  rewrite (count_source_none "wikipedia" "manual" added) by (discriminate || assumption).
  rewrite (count_source_none "manual" "wikipedia" primary) by (discriminate || assumption).
  unfold len. rewrite length_app. lia.
Qed.

Lemma X4_summary_adds_up_witness :
  writable (ParseWikipediaColors.output_path "scripts") Examples.empty_world = true
  /\ exists w',
       ParseWikipediaColors.main_with Examples.codeSource Examples.codeTable
         Examples.secondary "scripts" Examples.empty_world = Ok w'
       /\ exists total wiki_count manual_count,
            stdout w'
            = ["Generated scripts/../public/japan_line_colors.json with "
               ++ str_of_nat total ++ " line entries";
               "  - From Wikipedia: " ++ str_of_nat wiki_count;
               "  - Manual additions: " ++ str_of_nat manual_count]
            /\ wiki_count + manual_count = total.
Proof.
  split; [reflexivity|].
  destruct (X4_summary_adds_up Examples.codeSource Examples.codeTable
              Examples.secondary "scripts" Examples.empty_world eq_refl)
    as (primary & w' & total & wc & mc & _ & Hmain & Hout & _ & Hsum).
  exists w'. split; [exact Hmain|].
  exists total, wc, mc. split; [exact Hout | exact Hsum].
Defined.

(** What the run on the small tables prints. *)
Example summary_example :
  match ParseWikipediaColors.main_with Examples.codeSource Examples.codeTable
          Examples.secondary "scripts" Examples.empty_world with
  | Ok w' => stdout w'
  | Raise _ => []
  end
  = ["Generated scripts/../public/japan_line_colors.json with 2 line entries";
     "  - From Wikipedia: 1"; "  - Manual additions: 1"].
Proof. vm_compute. reflexivity. Qed.

(** ** Invariants carried from the sources to the output *)

Section CarriedInvariants.
Import ParseWikipediaColors.

Lemma resolve_loop_Forall_rows (W : dict CodeRow)
    (P : string * LineAttributes -> Prop) (entries : list (string * string))
    (output : dict LineAttributes) :
  (forall ja_name code row, get code W = Some row -> P (ja_name, wikipedia_entry row)) ->
  Forall P (items output) ->
  exists out, for_each (resolve_step W) entries output = Ok out /\ Forall P (items out).
Proof.
  intros HP. revert output.
  induction entries as [|[ja code] entries IH]; intros output Hout.
  - simpl. eauto.
  - cbn [for_each]. rewrite resolve_step_entry. cbn [bind]. apply IH.
    destruct (get code W) as [row|] eqn:E; [|exact Hout].
    apply Forall_setitem; eauto.
Qed.

Lemma fill_gaps_Forall_in (P : string * LineAttributes -> Prop) (A : dict string)
    (output : dict LineAttributes) :
  (forall ja_name c, In (ja_name, c) (items A) -> P (ja_name, manual_entry ja_name c)) ->
  Forall P (items output) -> Forall P (items (fill_gaps A output)).
Proof.
  unfold fill_gaps, items. revert output.
  induction A as [|[ja c] A IH]; intros output HP Hout; [exact Hout|].
  cbn [fold_left fill_step]. apply IH.
  - intros ja' c' Hin. apply HP. now right.
  - destruct (contains ja output); cbn [negb]; [exact Hout|].
    apply Forall_setitem; [exact Hout|]. apply (HP ja c). now left.
Qed.

Lemma get_In_rows (W : dict CodeRow) code row :
  get code W = Some row -> In (code, row) (items W).
Proof. apply get_In_items. Qed.
End CarriedInvariants.

(** X6.  generateLineData carries the color format through: if every
    color of the two source tables is ['#'] and six hexadecimal
    digits, so is every color of the built table. *)
Theorem X6_build_lines_keeps_color_format (KANSAI TOKYO : dict LineAttributes) :
  Forall (fun kv => is_color (color (snd kv)) = true) (items KANSAI) ->
  Forall (fun kv => is_color (color (snd kv)) = true) (items TOKYO) ->
  Forall (fun kv => is_color (color (snd kv)) = true)
    (items (GenerateLineData.build_lines KANSAI TOKYO)).
Proof.
  intros HK HT. unfold GenerateLineData.build_lines, GenerateLineData.merge_lines.
  apply Forall_setitem; [|reflexivity].
  apply Forall_update; [|exact HT].
  apply Forall_update; [constructor | exact HK].
Qed.

Lemma X6_build_lines_keeps_color_format_witness :
  Forall (fun kv => is_color (color (snd kv)) = true) (items Examples.sourceA)
  /\ Forall (fun kv => is_color (color (snd kv)) = true) (items Examples.sourceB)
  /\ Forall (fun kv => is_color (color (snd kv)) = true)
       (items (GenerateLineData.build_lines Examples.sourceA Examples.sourceB)).
Proof.
  assert (HA : Forall (fun kv => is_color (color (snd kv)) = true)
                 (items Examples.sourceA))
    by (repeat constructor).
  assert (HB : Forall (fun kv => is_color (color (snd kv)) = true)
                 (items Examples.sourceB))
    by (repeat constructor).
  split; [exact HA|]. split; [exact HB|].
  exact (X6_build_lines_keeps_color_format Examples.sourceA Examples.sourceB HA HB).
Defined.

(** X7.  parseWikipediaColors carries the color format through: if
    every hex value of the code table, prefixed with ['#'], and every
    additional color has the format, so has every color of the returned
    table. *)
Theorem X7_line_data_keeps_color_format (J : dict string)
    (W : dict ParseWikipediaColors.CodeRow) (A : dict string) :
  Forall (fun kv => is_color ("#" ++ fst (fst (snd kv))) = true) (items W) ->
  Forall (fun kv => is_color (snd kv) = true) (items A) ->
  exists line_data,
    ParseWikipediaColors.generate_line_data_with J W A = Ok line_data
    /\ Forall (fun kv => is_color (color (snd kv)) = true) (items line_data).
Proof.
  intros HW HA.
  destruct (resolve_loop_Forall_rows W
              (fun kv => is_color (color (snd kv)) = true) (items J) [])
    as (primary & Hrun & Hprimary).
  - intros ja code [[h e] o] Hget.
    apply get_In_rows in Hget.
    apply (proj1 (Forall_forall _ _) HW) in Hget. exact Hget.
  - constructor.
  - exists (ParseWikipediaColors.fill_gaps A primary).
    split; [now apply generate_line_data_with_eq|].
    apply fill_gaps_Forall_in; [|exact Hprimary].
    intros ja c Hin.
    apply (proj1 (Forall_forall _ _) HA) in Hin. exact Hin.
Qed.

Lemma X7_line_data_keeps_color_format_witness :
  Forall (fun kv => is_color ("#" ++ fst (fst (snd kv))) = true)
    (items Examples.codeTable)
  /\ Forall (fun kv => is_color (snd kv) = true) (items Examples.secondary)
  /\ exists line_data,
       ParseWikipediaColors.generate_line_data_with
         Examples.codeSource Examples.codeTable Examples.secondary = Ok line_data
       /\ Forall (fun kv => is_color (color (snd kv)) = true) (items line_data).
Proof.
  assert (HW : Forall (fun kv => is_color ("#" ++ fst (fst (snd kv))) = true)
                 (items Examples.codeTable))
    by (repeat constructor).
  assert (HA : Forall (fun kv => is_color (snd kv) = true) (items Examples.secondary))
    by (repeat constructor).
  split; [exact HW|]. split; [exact HA|].
  exact (X7_line_data_keeps_color_format Examples.codeSource Examples.codeTable
           Examples.secondary HW HA).
Defined.

(** X11.  When no code of the code source is in the code table, the
    returned table consists of the additional colors alone: one manual
    entry per additional color, in order. *)
Theorem X11_nothing_resolves (J : dict string) (W : dict ParseWikipediaColors.CodeRow)
    (A : dict string) :
  wf A ->
  forallb (fun kv => negb (contains (snd kv) W)) (items J) = true ->
  ParseWikipediaColors.generate_line_data_with J W A
  = Ok (map (fun kv => (fst kv, manual_entry (fst kv) (snd kv))) (items A)).
Proof.
  intros HA Hnone.
  destruct (resolve_loop_keys W (items J) []) as (primary & Hrun & Hkeys).
  assert (Hempty : primary = []).
  { destruct primary as [|[k v] rest]; [reflexivity|]. exfalso.
    destruct (proj1 (Hkeys k) (or_introl eq_refl)) as [[]|(code & Hin & Hc)].
    apply (proj1 (forallb_forall _ _) Hnone) in Hin. simpl in Hin.
    rewrite Hc in Hin. discriminate. }
  subst primary.
  rewrite (generate_line_data_with_eq J W A [] Hrun), fill_gaps_struct by exact HA.
  cbn [app]. unfold contains. cbn [get negb]. now rewrite filter_true.
Qed.

Lemma X11_nothing_resolves_witness :
  wf Examples.secondary
  /\ forallb (fun kv => negb (contains (snd kv) Examples.codeTable))
       [("LineB", "ZZ")] = true
  /\ ParseWikipediaColors.generate_line_data_with [("LineB", "ZZ")]
       Examples.codeTable Examples.secondary
     = Ok [("LineA", manual_entry "LineA" "#222222"); ("Y", manual_entry "Y" "#333333")].
Proof.
  assert (HA : wf Examples.secondary) by wf_small.
  split; [exact HA|]. split; [reflexivity|].
  exact (X11_nothing_resolves [("LineB", "ZZ")] Examples.codeTable
           Examples.secondary HA eq_refl).
Defined.

(** X13.  No key twice: whatever lists the sources are, the table
    generateLineData builds and the table parseWikipediaColors returns
    hold every key at most once. *)
Theorem X13_output_keys_unique (KANSAI TOKYO : dict LineAttributes)
    (J : dict string) (W : dict ParseWikipediaColors.CodeRow) (A : dict string) :
  NoDup (keys (GenerateLineData.build_lines KANSAI TOKYO))
  /\ exists line_data,
       ParseWikipediaColors.generate_line_data_with J W A = Ok line_data
       /\ NoDup (keys line_data).
Proof.
  split; [apply wf_build_lines|].
  destruct (resolve_loop_inv W wf (items J) []) as (primary & Hrun & Hwf).
  - intros d k v. apply wf_setitem.
  - apply wf_nil.
  - exists (ParseWikipediaColors.fill_gaps A primary).
    split; [now apply generate_line_data_with_eq|].
    apply (fill_gaps_inv wf); [|exact Hwf].
    intros d k v. apply wf_setitem.
Qed.

(** ** Where the scripts write *)

Section Paths.

Lemma string_app_assoc (a b c : string) : (a ++ b) ++ c = a ++ (b ++ c).
Proof. induction a as [|x a IH]; simpl; [reflexivity | now rewrite IH]. Qed.

Lemma string_app_inj_l (a b c : string) : a ++ b = a ++ c -> b = c.
Proof.
  induction a as [|x a IH]; simpl; [auto|]. intros [= H]. auto.
Qed.

Lemma string_app_nonempty (a b : string) :
  b <> EmptyString -> a ++ b <> EmptyString.
Proof. destruct a; simpl; [auto | discriminate]. Qed.

Lemma endswith_char_app (c : ascii) (a b : string) :
  b <> EmptyString -> endswith_char c (a ++ b) = endswith_char c b.
Proof.
  intros Hb. induction a as [|x a IH]; [reflexivity|].
  change (String x a ++ b) with (String x (a ++ b)).
  pose proof (string_app_nonempty a b Hb) as Hne.
  cbn [endswith_char]. destruct (a ++ b) eqn:E; [contradiction | exact IH].
Qed.

(** Joining a component that is relative and does not end with a slash
    onto a path that does not either. *)
Lemma path_join_step_plain (path b : string) :
  path <> EmptyString -> endswith_char "/" path = false ->
  startswith "/" b = false ->
  path_join_step path b = path ++ "/" ++ b.
Proof.
  intros Hne Hend Hb. unfold path_join_step. rewrite Hb, Hend.
  destruct (String.eqb_spec path EmptyString); [contradiction | reflexivity].
Qed.

Lemma output_path_join (script_dir file : string) :
  startswith "/" file = false ->
  os_path_join script_dir [".."; "public"; file]
  = script_dir
    ++ (if String.eqb script_dir EmptyString || endswith_char "/" script_dir
        then EmptyString else "/")
    ++ "../public/" ++ file.
Proof.
  intros Hfile. unfold os_path_join. cbn [fold_left].
  set (sep := if String.eqb script_dir EmptyString || endswith_char "/" script_dir
              then EmptyString else "/").
  assert (H1 : path_join_step script_dir ".." = script_dir ++ sep ++ "..").
  { unfold path_join_step, sep. cbn [startswith Ascii.eqb andb].
    change (startswith "/" "..") with false. cbn iota.
    now destruct (String.eqb script_dir EmptyString || endswith_char "/" script_dir). }
  rewrite H1.
  assert (Hdots : script_dir ++ sep ++ ".." = (script_dir ++ sep) ++ "..")
    by (now rewrite string_app_assoc).
  rewrite Hdots.
  rewrite (path_join_step_plain ((script_dir ++ sep) ++ "..") "public");
    [| apply string_app_nonempty; discriminate
     | rewrite endswith_char_app by discriminate; reflexivity
     | reflexivity].
  rewrite <- (string_app_assoc _ "/" "public").
  rewrite (path_join_step_plain _ file);
    [| apply string_app_nonempty; discriminate
     | rewrite endswith_char_app by discriminate; reflexivity
     | exact Hfile].
  rewrite !string_app_assoc. reflexivity.
Qed.

Lemma output_paths_differ (script_dir : string) :
  GenerateLineData.output_path script_dir
  <> ParseWikipediaColors.output_path script_dir.
Proof.
  unfold GenerateLineData.output_path, ParseWikipediaColors.output_path.
  rewrite !output_path_join by reflexivity.
  intros H. apply string_app_inj_l, string_app_inj_l in H. discriminate H.
Qed.
End Paths.

(** X8.  Both scripts write beside the script directory: the output
    path is the script directory, a slash unless the directory is empty
    or already ends with one, and [../public/<file>]; the two scripts
    never share an output path. *)
Theorem X8_output_path (script_dir : string) :
  GenerateLineData.output_path script_dir
  = script_dir
    ++ (if String.eqb script_dir EmptyString || endswith_char "/" script_dir
        then EmptyString else "/")
    ++ "../public/japan_line_data.json"
  /\ ParseWikipediaColors.output_path script_dir
     = script_dir
       ++ (if String.eqb script_dir EmptyString || endswith_char "/" script_dir
           then EmptyString else "/")
       ++ "../public/japan_line_colors.json"
  /\ GenerateLineData.output_path script_dir
     <> ParseWikipediaColors.output_path script_dir.
Proof.
  split; [|split].
  - apply (output_path_join script_dir "japan_line_data.json"). reflexivity.
  - apply (output_path_join script_dir "japan_line_colors.json"). reflexivity.
  - apply output_paths_differ.
Qed.

Example output_path_examples :
  GenerateLineData.output_path EmptyString = "../public/japan_line_data.json"
  /\ GenerateLineData.output_path "/repo/scripts"
     = "/repo/scripts/../public/japan_line_data.json"
  /\ ParseWikipediaColors.output_path "scripts/"
     = "scripts/../public/japan_line_colors.json".
Proof. repeat split. Qed.

(** ** Files the runs leave alone *)

Section Frames.

Lemma main_with_frame (KANSAI TOKYO : dict LineAttributes) script_dir w :
  writable (GenerateLineData.output_path script_dir) w = true ->
  exists w',
    GenerateLineData.main_with KANSAI TOKYO script_dir w = Ok w'
    /\ read_text (GenerateLineData.output_path script_dir) w'
       = Some (dumps (GenerateLineData.build_lines KANSAI TOKYO))
    /\ unwritable w' = unwritable w
    /\ forall p, p <> GenerateLineData.output_path script_dir ->
                 read_text p w' = read_text p w.
Proof.
  intros Hw. unfold GenerateLineData.main_with, write_text. rewrite Hw. cbn [bind].
  eexists. split; [reflexivity|]. unfold read_text, print. cbn [files unwritable].
  rewrite get_setitem_eq. repeat split.
  intros p Hp. now apply get_setitem_ne.
Qed.

Lemma main_with_colors_frame (J : dict string) (W : dict ParseWikipediaColors.CodeRow)
    (A : dict string) script_dir w line_data :
  ParseWikipediaColors.generate_line_data_with J W A = Ok line_data ->
  writable (ParseWikipediaColors.output_path script_dir) w = true ->
  exists w',
    ParseWikipediaColors.main_with J W A script_dir w = Ok w'
    /\ read_text (ParseWikipediaColors.output_path script_dir) w'
       = Some (dumps line_data)
    /\ unwritable w' = unwritable w
    /\ forall p, p <> ParseWikipediaColors.output_path script_dir ->
                 read_text p w' = read_text p w.
Proof.
  intros Hgen Hw. unfold ParseWikipediaColors.main_with, write_text.
  rewrite Hgen. cbn [bind]. rewrite Hw. cbn [bind].
  eexists. split; [reflexivity|]. unfold read_text, print. cbn [files unwritable].
  rewrite get_setitem_eq. repeat split.
  intros p Hp. now apply get_setitem_ne.
Qed.

Lemma generate_line_data_with_total (J : dict string)
    (W : dict ParseWikipediaColors.CodeRow) (A : dict string) :
  exists line_data, ParseWikipediaColors.generate_line_data_with J W A = Ok line_data.
Proof.
  destruct (resolve_loop_keys W (items J) []) as (primary & Hrun & _).
  exists (ParseWikipediaColors.fill_gaps A primary).
  exact (generate_line_data_with_eq J W A primary Hrun).
Qed.
End Frames.



(** X9.  The two scripts compose: run one after the other from the same
    script directory, in either order, both succeed and afterwards each
    output file holds the serialization of its own table. *)
Theorem X9_scripts_do_not_clobber (KANSAI TOKYO : dict LineAttributes)
    (J : dict string) (W : dict ParseWikipediaColors.CodeRow) (A : dict string)
    (script_dir : string) (w : world) :
  writable (GenerateLineData.output_path script_dir) w = true ->
  writable (ParseWikipediaColors.output_path script_dir) w = true ->
  exists line_data,
    ParseWikipediaColors.generate_line_data_with J W A = Ok line_data
    /\ (exists w1 w2,
          GenerateLineData.main_with KANSAI TOKYO script_dir w = Ok w1
          /\ ParseWikipediaColors.main_with J W A script_dir w1 = Ok w2
          /\ read_text (GenerateLineData.output_path script_dir) w2
             = Some (dumps (GenerateLineData.build_lines KANSAI TOKYO))
          /\ read_text (ParseWikipediaColors.output_path script_dir) w2
             = Some (dumps line_data))
    /\ (exists w1 w2,
          ParseWikipediaColors.main_with J W A script_dir w = Ok w1
          /\ GenerateLineData.main_with KANSAI TOKYO script_dir w1 = Ok w2
          /\ read_text (GenerateLineData.output_path script_dir) w2
             = Some (dumps (GenerateLineData.build_lines KANSAI TOKYO))
          /\ read_text (ParseWikipediaColors.output_path script_dir) w2
             = Some (dumps line_data)).
Proof.
  intros HA HB.
  destruct (generate_line_data_with_total J W A) as (line_data & Hgen).
  pose proof (output_paths_differ script_dir) as Hdiff.
  exists line_data. split; [exact Hgen|]. split.
  - destruct (main_with_frame KANSAI TOKYO script_dir w HA)
      as (w1 & Hrun1 & Hfile1 & Hun1 & _).
    assert (HB1 : writable (ParseWikipediaColors.output_path script_dir) w1 = true).
    { unfold writable in *. now rewrite Hun1. }
    destruct (main_with_colors_frame J W A script_dir w1 line_data Hgen HB1)
      as (w2 & Hrun2 & Hfile2 & _ & Hframe2).
    exists w1, w2. repeat split; try assumption.
    rewrite Hframe2 by exact Hdiff. exact Hfile1.
  - destruct (main_with_colors_frame J W A script_dir w line_data Hgen HB)
      as (w1 & Hrun1 & Hfile1 & Hun1 & _).
    assert (HA1 : writable (GenerateLineData.output_path script_dir) w1 = true).
    { unfold writable in *. now rewrite Hun1. }
    destruct (main_with_frame KANSAI TOKYO script_dir w1 HA1)
      as (w2 & Hrun2 & Hfile2 & _ & Hframe2).
    exists w1, w2. repeat split; try assumption.
    rewrite Hframe2 by (intros E; apply Hdiff; now symmetry). exact Hfile1.
Qed.

Lemma X9_scripts_do_not_clobber_witness :
  writable (GenerateLineData.output_path "scripts") Examples.used_world = true
  /\ writable (ParseWikipediaColors.output_path "scripts") Examples.used_world = true
  /\ exists line_data w1 w2,
       ParseWikipediaColors.generate_line_data_with Examples.codeSource
         Examples.codeTable Examples.secondary = Ok line_data
       /\ GenerateLineData.main_with Examples.sourceA Examples.sourceB "scripts"
            Examples.used_world = Ok w1
       /\ ParseWikipediaColors.main_with Examples.codeSource Examples.codeTable
            Examples.secondary "scripts" w1 = Ok w2
       /\ read_text "scripts/../public/japan_line_data.json" w2
          = Some (dumps (GenerateLineData.build_lines Examples.sourceA Examples.sourceB))
       /\ read_text "scripts/../public/japan_line_colors.json" w2
          = Some (dumps line_data).
Proof.
  split; [reflexivity|]. split; [reflexivity|].
  destruct (X9_scripts_do_not_clobber Examples.sourceA Examples.sourceB
              Examples.codeSource Examples.codeTable Examples.secondary
              "scripts" Examples.used_world eq_refl eq_refl)
    as (line_data & Hgen & (w1 & w2 & H1 & H2 & H3 & H4) & _).
  exists line_data, w1, w2. repeat split; assumption.
Defined.

(** ** Strings in the JSON output *)

Lemma escape_char_plain (c : ascii) :
  is_plain_char c = true -> Json.escape_char c = String c EmptyString.
Proof.
  destruct c as [[] [] [] [] [] [] [] []]; intros H;
    solve [discriminate H | reflexivity].
Qed.

Lemma is_plain_char_high (c : ascii) :
  128 <= nat_of_ascii c -> is_plain_char c = true.
Proof.
  destruct c as [[] [] [] [] [] [] [] []]; intros H;
    solve [reflexivity | exfalso; vm_compute in H; lia].
Qed.

(** X10.  With [ensure_ascii=False] a string without control
    characters, quotes and backslashes is written byte for byte between
    two quotes; bytes outside ASCII (UTF-8 sequences of Japanese names)
    are never escaped. *)
Theorem X10_plain_strings_written_literally (s : string) :
  is_plain s = true ->
  Json.escape s = s
  /\ Json.encode_str s = String dquote (s ++ String dquote EmptyString)
  /\ forall c, 128 <= nat_of_ascii c -> Json.escape_char c = String c EmptyString.
Proof.
  intros H.
  assert (He : Json.escape s = s).
  { unfold is_plain in H. induction s as [|c s IH]; [reflexivity|].
    cbn [list_ascii_of_string forallb] in H.
    apply andb_true_iff in H as [Hc Hs].
    cbn [Json.escape]. rewrite (escape_char_plain c Hc), (IH Hs). reflexivity. }
  split; [exact He|]. split.
  - unfold Json.encode_str. now rewrite He.
  - intros c Hc. apply escape_char_plain, is_plain_char_high, Hc.
Qed.

Lemma X10_plain_strings_written_literally_witness :
  is_plain "銀座線" = true
  /\ Json.escape "銀座線" = "銀座線"
  /\ Json.encode_str "銀座線" = String dquote ("銀座線" ++ String dquote EmptyString).
Proof.
  split; [reflexivity|].
  destruct (X10_plain_strings_written_literally "銀座線" eq_refl) as (He & Hs & _).
  split; [exact He | exact Hs].
Defined.

(** Every key, color and English name of the two literal tables is such
    a string, so the files hold them as written in the sources. *)
Example literal_tables_are_plain :
  forallb (fun kv => is_plain (fst kv) && is_plain (color (snd kv))
                     && is_plain (en (snd kv)))
    (items GenerateLineData.all_lines) = true
  /\ match ParseWikipediaColors.generate_line_data with
     | Ok line_data =>
         forallb (fun kv => is_plain (fst kv)
                            && forallb (fun f => is_plain (snd f))
                                 (items (attrs_dict (snd kv))))
           (items line_data)
     | Raise _ => false
     end = true.
Proof. vm_compute. auto. Qed.
